(** * Retail Investor Stock Analyzer: a shallow embedding of [main.py]

    The program is a Streamlit page.  [RetailInvestorStockAnalyzer] has two
    static methods, [get_key_metrics] and [plot_price_history], and [main]
    wires them to the page: a ticker is read, the fundamentals snapshot is
    fetched and formatted into four groups of tiles, the price history is
    charted and three threshold banners are shown.

    The embedding has four layers:
    - [PyNum]: Python numbers by their exact values, with the places where
      CPython rounds to binary64, overflows to an infinity or refuses an
      [int] that is too large written out;
    - [PyText]: the text CPython prints for those numbers ([:.2f], [:,],
      [str]) and the reader behind [float(...)];
    - [Py]: the dynamically typed values found in the provider's snapshot,
      exceptions, and the builtin operations the program applies to them;
    - [App]: the program itself, in a small monad that threads the page's
      event log and propagates exceptions. *)

From Stdlib Require Import ZArith QArith Qround Qabs Lqa String Ascii List Lia Bool.
From Stdlib Require Import DecimalString DecimalN.
From stdpp Require Import base option list gmap strings.

Open Scope Z_scope.

(** ** Numbers *)

Module PyNum.

(** A Python [int] is an unbounded integer.  A Python [float] is a binary64:
    a finite one is a rational, and [Float q] is the float whose exact value
    is [q]; [Infinity negative] is one of the two infinities.  NaN is outside
    the model: no operation of the program makes one out of numbers that are
    not NaN.  The two zeros of binary64 are one number here. *)
Inductive number :=
| Int (z : Z)
| Float (q : Q)
| Infinity (negative : bool).

(** The integer nearest to [a / d], ties to the even one. *)
Definition round_half_even (a : Z) (d : positive) : Z :=
  let f := a / Zpos d in
  let r := a mod Zpos d in
  match 2 * r ?= Zpos d with
  | Lt => f
  | Gt => f + 1
  | Eq => if Z.even f then f else f + 1
  end.

(** [binade q] is the [k] with [2^k <= |q| < 2^(k+1)], for [q <> 0]. *)
Definition binade (q : Q) : Z :=
  let n := Z.abs (Qnum q) in
  let d := Zpos (Qden q) in
  let k := Z.log2 n - Z.log2 d in
  if 0 <=? k
  then (if d * 2 ^ k <=? n then k else k - 1)
  else (if d <=? n * 2 ^ (- k) then k else k - 1).

(** Round to the nearest number with 53 significant bits, ties to even,
    with the gradual underflow of binary64 below [2^-1022].  The exponent is
    not bounded above here; [overflows] tells when the result is beyond the
    largest binary64. *)
Definition rnd64 (q : Q) : Q :=
  if Qnum q =? 0 then 0%Q
  else
    let e := Z.max (binade q - 52) (-1074) in
    if 0 <=? e
    then inject_Z (round_half_even (Qnum q) (Qden q * Z.to_pos (2 ^ e)) * 2 ^ e)
    else Qred (round_half_even (Qnum q * 2 ^ (- e)) (Qden q) # Z.to_pos (2 ^ (- e))).

(** A rounded value of magnitude [2^1024] or more is no binary64. *)
Definition overflows (r : Q) : bool := Qle_bool (inject_Z (2 ^ 1024)) (Qabs r).

(** The float nearest to [q], as float arithmetic and [float(s)] produce it:
    a value that rounds beyond the largest binary64 becomes the infinity of
    its sign. *)
Definition nearest_float (q : Q) : number :=
  let r := rnd64 q in
  if overflows r then Infinity (Qnum q <? 0) else Float r.

(** The float a decimal literal denotes. *)
Definition float_lit (q : Q) : number := nearest_float q.

(** [x * 100]: exact on [int], rounded on [float]; a float product beyond
    the range is an infinity. *)
Definition mul100 (n : number) : number :=
  match n with
  | Int z => Int (z * 100)
  | Float q => nearest_float (q * 100)
  | Infinity negative => Infinity negative
  end.

(** The conversion of an [int] to [float]: the nearest float, and [None]
    where CPython raises [OverflowError] because the rounded value is beyond
    the largest binary64. *)
Definition float_of_int (z : Z) : option Q :=
  let r := rnd64 (inject_Z z) in
  if overflows r then None else Some r.

(** [float(n)] of a number; a float is returned as it is. *)
Definition to_float (n : number) : option number :=
  match n with
  | Int z => Float <$> float_of_int z
  | Float _ | Infinity _ => Some n
  end.

(** The number of hundredths nearest to [q], ties to even: the decimal that
    CPython's correctly rounded conversion produces for two places. *)
Definition hundredths (q : Q) : Z :=
  round_half_even (Qnum q * 100) (Qden q).

(** [round(n, 2)]: an [int] is returned unchanged; a finite [float] goes to
    the nearest two-place decimal and back to the nearest float; an infinity
    rounds to itself. *)
Definition round2 (n : number) : number :=
  match n with
  | Int z => Int z
  | Float q => nearest_float (hundredths q # 100)
  | Infinity negative => Infinity negative
  end.

(** Comparison with an [int] literal is exact in Python; an infinity is
    below or above every [int]. *)
Definition compare_int (n : number) (k : Z) : comparison :=
  match n with
  | Int z => z ?= k
  | Float q => (q ?= inject_Z k)%Q
  | Infinity negative => if negative then Lt else Gt
  end.

Definition lt_int (n : number) (k : Z) : bool :=
  match compare_int n k with Lt => true | _ => false end.

Definition gt_int (n : number) (k : Z) : bool :=
  match compare_int n k with Gt => true | _ => false end.

End PyNum.

(** ** Text of numbers *)

Module PyText.
Import PyNum.

Definition digits (n : N) : string := NilEmpty.string_of_uint (N.to_uint n).

Definition digit (d : Z) : ascii := ascii_of_N (48 + Z.to_N d).

Definition sign_prefix (neg : bool) : string := if neg then "-" else "".

Fixpoint zeros (n : nat) : string :=
  match n with
  | O => ""
  | S n' => String "0" (zeros n')
  end.

(** The [,] option: a comma before every group of three digits. *)
Fixpoint group_thousands (s : string) : string :=
  match s with
  | EmptyString => EmptyString
  | String c rest =>
      let n := String.length rest in
      String c (if (0 <? n)%nat && (n mod 3 =? 0)%nat
                then String "," (group_thousands rest)
                else group_thousands rest)
  end.

(** [str(z)] and [format(z, ',')] of an [int]. *)
Definition int_str (z : Z) : string :=
  sign_prefix (z <? 0) +:+ digits (Z.abs_N z).

Definition int_commas (z : Z) : string :=
  sign_prefix (z <? 0) +:+ group_thousands (digits (Z.abs_N z)).

(** [format(x, '.2f')] of the float with exact value [q]: the sign, the
    integer part, a point and exactly two digits.  A negative value that
    rounds to zero keeps its sign, as in CPython. *)
Definition fixed2 (q : Q) : string :=
  let h := Z.abs (hundredths q) in
  sign_prefix (Qnum q <? 0) +:+ digits (Z.to_N (h / 100)) +:+ "."
    +:+ String (digit (h mod 100 / 10)) (String (digit (h mod 10)) "").

(** An infinity prints as [inf] or [-inf] under every format. *)
Definition inf_text (negative : bool) : string := sign_prefix negative +:+ "inf".

(** [format(n, '.2f')] of a number.  An [int] is converted to a float first,
    and there is no text when that conversion raises. *)
Definition number_fixed2 (n : number) : option string :=
  match n with
  | Int z => fixed2 <$> float_of_int z
  | Float q => Some (fixed2 q)
  | Infinity negative => Some (inf_text negative)
  end.

(** *** [repr] of a float: the shortest digits that read back as the float *)

Definition pow10 (k : Z) : Q :=
  if 0 <=? k then inject_Z (10 ^ k) else 1 # Z.to_pos (10 ^ (- k)).

(** [decade a] is the [k] with [10^k <= a < 10^(k+1)], for [a > 0]. *)
Definition decade (a : Q) : Z :=
  let up k := if Qle_bool (pow10 (k + 1)) a then k + 1 else k in
  up (up (up (binade a * 30103 / 100000 - 1))).

(** An [n]-digit decimal [D * 10^e] next to [a] that rounds to [a], the
    nearer one when both neighbours do. *)
Definition candidate (a : Q) (k n : Z) : option (Z * Z) :=
  let e := k - n + 1 in
  let x := (a / pow10 e)%Q in
  let lo := Qfloor x in
  let hi := lo + 1 in
  let ok d := Qeq_bool (rnd64 (inject_Z d * pow10 e)) a in
  let nearer :=
    match (x - inject_Z lo ?= inject_Z hi - x)%Q with
    | Lt => lo
    | Gt => hi
    | Eq => if Z.even lo then lo else hi
    end in
  match ok lo, ok hi with
  | true, true => Some (nearer, e)
  | true, false => Some (lo, e)
  | false, true => Some (hi, e)
  | false, false => None
  end.

(** Try 1, 2, ... 17 digits; seventeen always suffice for a binary64. *)
Fixpoint shortest (a : Q) (k n : Z) (fuel : nat) : Z * Z :=
  match fuel with
  | O => (round_half_even (Qnum (a / pow10 (k - 16))) (Qden (a / pow10 (k - 16))), k - 16)
  | S fuel' =>
      match candidate a k n with
      | Some r => r
      | None => shortest a k (n + 1) fuel'
      end
  end.

Fixpoint strip_zeros (fuel : nat) (de : Z * Z) : Z * Z :=
  match fuel with
  | O => de
  | S fuel' =>
      let '(d, e) := de in
      if (d mod 10 =? 0) && negb (d =? 0) then strip_zeros fuel' (d / 10, e + 1) else de
  end.

(** [format(x, 'r')] and [format(x, ',')]: fixed notation when the decimal
    point falls among at most sixteen leading digits or at most three leading
    zeros, exponent notation otherwise; [.0] closes an integral value. *)
Definition float_text (commas : bool) (q : Q) : string :=
  if Qnum q =? 0 then "0.0"
  else
    let a := Qabs q in
    let '(d, e) := strip_zeros 20 (shortest a (decade a) 1 17) in
    let ds := digits (Z.to_N d) in
    let len := String.length ds in
    let decpt := Z.of_nat len + e in
    let grp s := if commas then group_thousands s else s in
    sign_prefix (Qnum q <? 0) +:+
    (if (decpt <=? -4) || (16 <? decpt)
     then
       let x := decpt - 1 in
       substring 0 1 ds
         +:+ (if (1 <? len)%nat then "." +:+ substring 1 (len - 1) ds else "")
         +:+ "e" +:+ (if x <? 0 then "-" else "+")
         +:+ (if Z.abs x <? 10 then "0" else "") +:+ digits (Z.abs_N x)
     else if decpt <=? 0
     then "0." +:+ zeros (Z.to_nat (- decpt)) +:+ ds
     else if Z.of_nat len <=? decpt
     then grp (ds +:+ zeros (Z.to_nat decpt - len)) +:+ ".0"
     else grp (substring 0 (Z.to_nat decpt) ds)
            +:+ "." +:+ substring (Z.to_nat decpt) (len - Z.to_nat decpt) ds).

Definition float_repr : Q -> string := float_text false.
Definition float_commas : Q -> string := float_text true.

(** [format(n, ',')] *)
Definition number_commas (n : number) : string :=
  match n with
  | Int z => int_commas z
  | Float q => float_commas q
  | Infinity negative => inf_text negative
  end.

(** [str(n)], what an f-string field without a format prints. *)
Definition number_str (n : number) : string :=
  match n with
  | Int z => int_str z
  | Float q => float_repr q
  | Infinity negative => inf_text negative
  end.

(** *** Reading a float

    [float(s)] is modelled on plain decimals (an optional sign, digits, and
    at most one point with digits on either side, at least one digit in all)
    and on the words [inf] and [infinity] in any case with an optional sign.
    Exponents, underscores, surrounding blanks and the word [nan], which
    CPython also reads, are reported as unreadable here; [:.2f] prints none
    of them for a number of the model. *)

(** [s.replace(c, '')] for a single character [c]. *)
Fixpoint remove_char (c : ascii) (s : string) : string :=
  match s with
  | EmptyString => EmptyString
  | String a rest =>
      if Ascii.eqb a c then remove_char c rest else String a (remove_char c rest)
  end.

(** Cut at the first point. *)
Fixpoint split_point (s : string) : string * option string :=
  match s with
  | EmptyString => (EmptyString, None)
  | String a rest =>
      if Ascii.eqb a "." then (EmptyString, Some rest)
      else let '(l, r) := split_point rest in (String a l, r)
  end.

Definition read_digits (s : string) : option N :=
  N.of_uint <$> NilEmpty.uint_of_string s.

Definition read_unsigned (s : string) : option Q :=
  let '(ip, fp) := split_point s in
  let fp := default EmptyString fp in
  if ((String.length ip =? 0) && (String.length fp =? 0))%nat then None
  else
    i ← read_digits ip;
    f ← read_digits fp;
    let scale := 10 ^ Z.of_nat (String.length fp) in
    Some ((Z.of_N i * scale + Z.of_N f) # Z.to_pos scale).

Definition read_decimal (s : string) : option Q :=
  match s with
  | String c rest =>
      if Ascii.eqb c "-" then Qopp <$> read_unsigned rest
      else if Ascii.eqb c "+" then read_unsigned rest
      else read_unsigned s
  | EmptyString => None
  end.

Definition lower (c : ascii) : ascii :=
  let n := N_of_ascii c in
  if (65 <=? n)%N && (n <=? 90)%N then ascii_of_N (n + 32) else c.

Fixpoint lowercase (s : string) : string :=
  match s with
  | EmptyString => EmptyString
  | String c rest => String (lower c) (lowercase rest)
  end.

Definition read_infinity (s : string) : option number :=
  let word w := let w := lowercase w in String.eqb w "inf" || String.eqb w "infinity" in
  match s with
  | String c rest =>
      if Ascii.eqb c "-" then (if word rest then Some (Infinity true) else None)
      else if Ascii.eqb c "+" then (if word rest then Some (Infinity false) else None)
      else if word s then Some (Infinity false) else None
  | EmptyString => None
  end.

(** A decimal is read to the nearest float; one beyond the range reads as
    an infinity. *)
Definition read_float (s : string) : option number :=
  match read_decimal s with
  | Some q => Some (nearest_float q)
  | None => read_infinity s
  end.

(** Character classes used to describe what the printers produce. *)
Fixpoint all_chars (p : ascii → bool) (s : string) : bool :=
  match s with
  | EmptyString => true
  | String c rest => p c && all_chars p rest
  end.

Definition is_digit (c : ascii) : bool :=
  let n := N_of_ascii c in (48 <=? n)%N && (n <=? 57)%N.

Definition is_not (c : ascii) (a : ascii) : bool := negb (Ascii.eqb a c).

End PyText.

(** ** Python values, exceptions and builtins *)

Module Py.
Import PyNum PyText.

(** What a field of the provider's snapshot may hold, and what a tile of the
    metrics dictionary holds: a number, a text or [None].  Booleans, lists
    and nested dictionaries are not modelled. *)
Inductive pyval :=
| VNum (n : number)
| VStr (s : string)
| VNone.

(** An exception: its class and the text [str(e)] prints.  Every exception
    of the model derives from [Exception]. *)
Record exn := Exn { exn_class : string; exn_text : string }.

Definition result (A : Type) : Type := exn + A.

#[global] Instance result_ret : MRet result := λ A x, inr x.
#[global] Instance result_bind : MBind result :=
  λ A B f m, match m with inl e => inl e | inr x => f x end.
#[global] Instance result_throw : MThrow exn result := λ A e, inl e.
#[global] Instance result_fmap : FMap result :=
  λ A B f m, match m with inl e => inl e | inr x => inr (f x) end.

Definition type_name (v : pyval) : string :=
  match v with
  | VNum (Int _) => "int"
  | VNum (Float _) | VNum (Infinity _) => "float"
  | VStr _ => "str"
  | VNone => "NoneType"
  end.

(** [format(v, '.2f')] *)
Definition format_2f (v : pyval) : result string :=
  match v with
  | VNum n =>
      match number_fixed2 n with
      | Some s => mret s
      | None => mthrow (Exn "OverflowError" "int too large to convert to float")
      end
  | VStr _ => mthrow (Exn "ValueError" "Unknown format code 'f' for object of type 'str'")
  | VNone => mthrow (Exn "TypeError" "unsupported format string passed to NoneType.__format__")
  end.

(** [format(v, ',')] *)
Definition format_comma (v : pyval) : result string :=
  match v with
  | VNum n => mret (number_commas n)
  | VStr _ => mthrow (Exn "ValueError" "Cannot specify ',' with 's'.")
  | VNone => mthrow (Exn "TypeError" "unsupported format string passed to NoneType.__format__")
  end.

(** [round(v, 2)] *)
Definition py_round2 (v : pyval) : result pyval :=
  match v with
  | VNum n => mret (VNum (round2 n))
  | _ => mthrow (Exn "TypeError" ("type " +:+ type_name v +:+ " doesn't define __round__ method"))
  end.

Fixpoint repeat_string (s : string) (n : nat) : string :=
  match n with
  | O => ""
  | S n' => s +:+ repeat_string s n'
  end.

(** [v * 100]: a number is multiplied, a string is repeated. *)
Definition py_mul100 (v : pyval) : result pyval :=
  match v with
  | VNum n => mret (VNum (mul100 n))
  | VStr s => mret (VStr (repeat_string s 100))
  | VNone => mthrow (Exn "TypeError" "unsupported operand type(s) for *: 'NoneType' and 'int'")
  end.

(** [str(v)] *)
Definition py_str (v : pyval) : string :=
  match v with
  | VNum n => number_str n
  | VStr s => s
  | VNone => "None"
  end.

(** [v.replace('%', '')] *)
Definition py_replace_percent (v : pyval) : result pyval :=
  match v with
  | VStr s => mret (VStr (remove_char "%" s))
  | _ => mthrow (Exn "AttributeError"
                   ("'" +:+ type_name v +:+ "' object has no attribute 'replace'"))
  end.

(** [float(v)] *)
Definition py_float (v : pyval) : result number :=
  match v with
  | VNum n =>
      match to_float n with
      | Some x => mret x
      | None => mthrow (Exn "OverflowError" "int too large to convert to float")
      end
  | VStr s =>
      match read_float s with
      | Some x => mret x
      | None => mthrow (Exn "ValueError" ("could not convert string to float: '" +:+ s +:+ "'"))
      end
  | VNone => mthrow (Exn "TypeError"
                       "float() argument must be a string or a real number, not 'NoneType'")
  end.

(** The left operand of an ordering against an [int] must be a number. *)
Definition py_number (op : string) (v : pyval) : result number :=
  match v with
  | VNum n => mret n
  | _ => mthrow (Exn "TypeError"
                   ("'" +:+ op +:+ "' not supported between instances of '"
                        +:+ type_name v +:+ "' and 'int'"))
  end.

(** [d.get(k, dflt)] on the snapshot. *)
Definition dict_get (d : gmap string pyval) (k : string) (dflt : pyval) : pyval :=
  default dflt (d !! k).

(** A dictionary built by a literal keeps its keys in the order written;
    [d[k]] raises [KeyError] on a key that is not there. *)
Fixpoint subscript {V : Type} (d : list (string * V)) (k : string) : result V :=
  match d with
  | [] => mthrow (Exn "KeyError" ("'" +:+ k +:+ "'"))
  | (k', v) :: rest => if String.eqb k' k then mret v else subscript rest k
  end.

End Py.

(** ** The program *)

Module App.
Import PyNum PyText Py.

(** *** The outside world: the market-data provider and the page *)

(** A price table as [yf.download] returns it: the row labels and the named
    columns. *)
Record DataFrame := {
  df_index : list string;
  df_columns : gmap string (list pyval)
}.

(** [df[name]] *)
Definition df_subscript (df : DataFrame) (name : string) : result (list pyval) :=
  match df_columns df !! name with
  | Some col => mret col
  | None => mthrow (Exn "KeyError" ("'" +:+ name +:+ "'"))
  end.

(** The Plotly figure of [plot_price_history]: one scatter trace and the
    layout. *)
Record Figure := {
  fig_x : list string;
  fig_y : list pyval;
  fig_mode : string;
  fig_name : string;
  fig_line_color : string;
  fig_line_width : Z;
  fig_title : string;
  fig_xaxis_title : string;
  fig_yaxis_title : string;
  fig_template : string
}.

(** The Streamlit calls of the program.  [st.columns(3)] is three columns of
    equal width.  The [with] blocks only choose where a widget is drawn and
    leave no entry of their own. *)
Inductive st_call :=
| st_set_page_config (page_title page_icon layout : string)
| st_title (body : string)
| st_write (body : string)
| st_columns (widths : list Z)
| st_text_input (label placeholder : string)
| st_button (label : string)
| st_header (body : string)
| st_tabs (names : list string)
| st_metric (label : string) (v : pyval)
| st_plotly_chart (fig : Figure) (use_container_width : bool)
| st_success (body : string)
| st_info (body : string)
| st_warning (body : string)
| st_error (body : string).

(** What one run of the script does to the world, in order. *)
Inductive event :=
| Fetch_info (ticker : string)
| Fetch_history (ticker period : string)
| Page (c : st_call).

Definition is_fetch (e : event) : bool :=
  match e with
  | Fetch_info _ | Fetch_history _ _ => true
  | Page _ => false
  end.

Definition fetches (log : list event) : list event := List.filter is_fetch log.

(** The provider answers each call with a value or an exception.  Nothing
    makes it answer the same way twice, so the answer may depend on how many
    calls the run has made before. *)
Record Provider := {
  info_of : nat → string → result (gmap string pyval);
  history_of : nat → string → string → result DataFrame
}.

(** Computations: the log is threaded, an exception ends the computation. *)
Definition M (A : Type) : Type := list event → result A * list event.

#[global] Instance M_ret : MRet M := λ A x log, (inr x, log).
#[global] Instance M_bind : MBind M :=
  λ A B f m log,
    match m log with
    | (inl e, log') => (inl e, log')
    | (inr x, log') => f x log'
    end.

Definition lift {A : Type} (r : result A) : M A := λ log, (r, log).

Definition emit (c : st_call) : M unit := λ log, (inr (), log ++ [Page c]).

(** [try: body  except Exception as e: handler(e)] *)
Definition try_except {A : Type} (body : M A) (handler : exn → M A) : M A :=
  λ log,
    match body log with
    | (inl e, log') => handler e log'
    | r => r
    end.

Fixpoint for_each {A : Type} (l : list A) (body : A → M unit) : M unit :=
  match l with
  | [] => mret ()
  | x :: rest => body x;; for_each rest body
  end.

(** [yf.Ticker(ticker).info] *)
Definition stock_info (P : Provider) (ticker : string) : M (gmap string pyval) :=
  λ log, (info_of P (length (fetches log)) ticker, log ++ [Fetch_info ticker]).

(** [yf.download(ticker, period=period)] *)
Definition yf_download (P : Provider) (ticker period : string) : M DataFrame :=
  λ log, (history_of P (length (fetches log)) ticker period,
          log ++ [Fetch_history ticker period]).

(** *** [RetailInvestorStockAnalyzer.get_key_metrics] *)

Definition metric_group : Type := list (string * pyval).
Definition metrics : Type := list (string * metric_group).

Definition rupee (s : string) : pyval := VStr ("₹" +:+ s).
Definition percent (s : string) : pyval := VStr (s +:+ "%").

(** The dictionary literal: its fields are evaluated in the order written,
    and the first one that raises ends the evaluation. *)
Definition key_metrics (info : gmap string pyval) : result metrics :=
  current_price ← format_2f (dict_get info "currentPrice" (VStr "N/A"));
  market_cap ← format_comma (dict_get info "marketCap" (VStr "N/A"));
  pe_ratio ← py_round2 (dict_get info "trailingPE" (VNum (Int 0)));
  price_to_book ← py_round2 (dict_get info "priceToBook" (VNum (Int 0)));
  forward_pe ← py_round2 (dict_get info "forwardPE" (VNum (Int 0)));
  dividend_yield ← py_mul100 (dict_get info "dividendYield" (VNum (Int 0))) ≫= format_2f;
  dividend_rate ← format_2f (dict_get info "dividendRate" (VStr "N/A"));
  payout_ratio ← py_mul100 (dict_get info "payoutRatio" (VNum (Int 0))) ≫= format_2f;
  high ← format_2f (dict_get info "fiftyTwoWeekHigh" (VStr "N/A"));
  low ← format_2f (dict_get info "fiftyTwoWeekLow" (VStr "N/A"));
  change ← py_mul100 (dict_get info "52WeekChange" (VNum (Int 0))) ≫= format_2f;
  trailing_eps ← py_round2 (dict_get info "trailingEps" (VNum (Int 0)));
  forward_eps ← py_round2 (dict_get info "forwardEps" (VNum (Int 0)));
  revenue_growth ← py_mul100 (dict_get info "revenueGrowth" (VNum (Int 0))) ≫= format_2f;
  mret
    [ ("Valuation",
       [ ("Current Price", rupee current_price);
         ("Market Cap", rupee market_cap);
         ("P/E Ratio", pe_ratio);
         ("Price to Book", price_to_book);
         ("Forward P/E", forward_pe) ]);
      ("Dividend",
       [ ("Dividend Yield", percent dividend_yield);
         ("Dividend Rate", rupee dividend_rate);
         ("Payout Ratio", percent payout_ratio) ]);
      ("Performance",
       [ ("52-Week High", rupee high);
         ("52-Week Low", rupee low);
         ("1Y Return", percent change) ]);
      ("Growth",
       [ ("EPS (Trailing)", trailing_eps);
         ("EPS (Forward)", forward_eps);
         ("Revenue Growth", percent revenue_growth) ]) ].

Definition get_key_metrics (P : Provider) (ticker : string) : M (option metrics) :=
  try_except
    (info ← stock_info P ticker;
     m ← lift (key_metrics info);
     mret (Some m))
    (λ e,
       emit (st_error ("Error fetching stock data: " +:+ exn_text e));;
       mret None).

(** *** [RetailInvestorStockAnalyzer.plot_price_history] *)

Definition price_figure (ticker : string) (df : DataFrame) (close : list pyval) : Figure :=
  {| fig_x := df_index df;
     fig_y := close;
     fig_mode := "lines";
     fig_name := "Closing Price";
     fig_line_color := "blue";
     fig_line_width := 2;
     fig_title := ticker +:+ " Stock Price History";
     fig_xaxis_title := "Date";
     fig_yaxis_title := "Price (₹)";
     fig_template := "plotly_white" |}.

Definition plot_price_history (P : Provider) (ticker period : string) : M (option Figure) :=
  try_except
    (df ← yf_download P ticker period;
     close ← lift (df_subscript df "Close");
     mret (Some (price_figure ticker df close)))
    (λ e,
       emit (st_error ("Error creating stock chart: " +:+ exn_text e));;
       mret None).

(** *** The three banners of [main] *)

Inductive severity := Success | Info | Warning.

Record verdict := Verdict { level : severity; message : string }.

Definition banner (v : verdict) : st_call :=
  match level v with
  | Success => st_success (message v)
  | Info => st_info (message v)
  | Warning => st_warning (message v)
  end.

Definition valuation_indicator (pe_ratio : number) : verdict :=
  if lt_int pe_ratio 15 then Verdict Success "Low P/E - Potentially Undervalued"
  else if gt_int pe_ratio 25 then Verdict Warning "High P/E - Potentially Overvalued"
  else Verdict Info "Reasonable Valuation".

Definition dividend_health (dividend_yield : number) : verdict :=
  if gt_int dividend_yield 3 then Verdict Success "High Dividend Yield"
  else if gt_int dividend_yield 1 then Verdict Info "Moderate Dividend"
  else Verdict Warning "Low Dividend Yield".

Definition growth_potential (revenue_growth : number) : verdict :=
  if gt_int revenue_growth 10 then Verdict Success "Strong Growth Potential"
  else if gt_int revenue_growth 5 then Verdict Info "Moderate Growth"
  else Verdict Warning "Limited Growth".

(** [metrics[group][label]] *)
Definition tile (m : metrics) (group label : string) : result pyval :=
  g ← subscript m group; subscript g label.

(** [float(metrics[group][label].replace('%', ''))] *)
Definition percent_tile (m : metrics) (group label : string) : result number :=
  v ← tile m group label; s ← py_replace_percent v; py_float s.

(** *** [main]

    One run of the script: [ticker] is what the text input returns and
    [analyze_button] what the button returns. *)

Definition truthy (s : string) : bool := negb (String.eqb s "").

Definition show_tabs (m : metrics) : M unit :=
  emit (st_tabs (map fst m));;
  for_each m (λ '(category, category_metrics),
    emit (st_columns [1; 1; 1]);;
    for_each category_metrics (λ '(name, v), emit (st_metric name v))).

Definition quick_insights (m : metrics) : M unit :=
  emit (st_header "Quick Insights");;
  emit (st_columns [1; 1; 1]);;
  emit (st_write "🔍 **Valuation Indicator**");;
  pe_ratio ← lift (tile m "Valuation" "P/E Ratio" ≫= py_number "<");
  emit (banner (valuation_indicator pe_ratio));;
  emit (st_write "💰 **Dividend Health**");;
  dividend_yield ← lift (percent_tile m "Dividend" "Dividend Yield");
  emit (banner (dividend_health dividend_yield));;
  emit (st_write "📈 **Growth Potential**");;
  revenue_growth ← lift (percent_tile m "Growth" "Revenue Growth");
  emit (banner (growth_potential revenue_growth)).

Definition analyze (P : Provider) (ticker : string) : M unit :=
  r ← get_key_metrics P ticker;
  match r with
  | Some ((_ :: _) as m) =>
      info ← stock_info P ticker;
      emit (st_header ("📊 " +:+ py_str (dict_get info "longName" (VStr ticker))));;
      show_tabs m;;
      emit (st_header "Stock Price History");;
      price_history ← plot_price_history P ticker "1y";
      match price_history with
      | Some fig => emit (st_plotly_chart fig true)
      | None => mret ()
      end;;
      quick_insights m
  | _ => mret ()
  end.

Definition main (P : Provider) (ticker : string) (analyze_button : bool) : M unit :=
  emit (st_set_page_config "Retail Investor Stock Analyzer" "💹" "wide");;
  emit (st_title "🚀 Retail Investor Stock Analysis Tool");;
  emit (st_write "Simple, essential metrics for individual investors");;
  emit (st_columns [3; 1]);;
  emit (st_text_input "Enter Stock Ticker" "e.g. INFY.NS, RELIANCE.NS");;
  emit (st_write "");;
  emit (st_button "Analyze Stock");;
  if truthy ticker || analyze_button then analyze P ticker else mret ().

(** The log of a run from an empty page, and how it ended. *)
Definition run {A : Type} (c : M A) : result A * list event := c [].

End App.

(** ** Vocabulary of the statements *)

Module Vocabulary.
Import PyNum PyText Py App.

(** [tiles_of info m]: every field read from [info] held a number (or was
    absent where the default is a number), each of the eight numbers printed
    with [:.2f] had a text, and [m] is what the dictionary literal builds
    from those numbers and texts. *)
Inductive tiles_of (info : gmap string pyval) : metrics → Prop :=
| tiles_of_numbers cp mc pe pb fpe dy dr pr hi lo ch te fe rg
                   price yield rate payout high low change growth :
    dict_get info "currentPrice" (VStr "N/A") = VNum cp →
    dict_get info "marketCap" (VStr "N/A") = VNum mc →
    dict_get info "trailingPE" (VNum (Int 0)) = VNum pe →
    dict_get info "priceToBook" (VNum (Int 0)) = VNum pb →
    dict_get info "forwardPE" (VNum (Int 0)) = VNum fpe →
    dict_get info "dividendYield" (VNum (Int 0)) = VNum dy →
    dict_get info "dividendRate" (VStr "N/A") = VNum dr →
    dict_get info "payoutRatio" (VNum (Int 0)) = VNum pr →
    dict_get info "fiftyTwoWeekHigh" (VStr "N/A") = VNum hi →
    dict_get info "fiftyTwoWeekLow" (VStr "N/A") = VNum lo →
    dict_get info "52WeekChange" (VNum (Int 0)) = VNum ch →
    dict_get info "trailingEps" (VNum (Int 0)) = VNum te →
    dict_get info "forwardEps" (VNum (Int 0)) = VNum fe →
    dict_get info "revenueGrowth" (VNum (Int 0)) = VNum rg →
    number_fixed2 cp = Some price →
    number_fixed2 (mul100 dy) = Some yield →
    number_fixed2 dr = Some rate →
    number_fixed2 (mul100 pr) = Some payout →
    number_fixed2 hi = Some high →
    number_fixed2 lo = Some low →
    number_fixed2 (mul100 ch) = Some change →
    number_fixed2 (mul100 rg) = Some growth →
    tiles_of info
      [ ("Valuation",
         [ ("Current Price", rupee price);
           ("Market Cap", rupee (number_commas mc));
           ("P/E Ratio", VNum (round2 pe));
           ("Price to Book", VNum (round2 pb));
           ("Forward P/E", VNum (round2 fpe)) ]);
        ("Dividend",
         [ ("Dividend Yield", percent yield);
           ("Dividend Rate", rupee rate);
           ("Payout Ratio", percent payout) ]);
        ("Performance",
         [ ("52-Week High", rupee high);
           ("52-Week Low", rupee low);
           ("1Y Return", percent change) ]);
        ("Growth",
         [ ("EPS (Trailing)", VNum (round2 te));
           ("EPS (Forward)", VNum (round2 fe));
           ("Revenue Growth", percent growth) ]) ].

(** The category names with the labels of their tiles, and the number of
    tiles in all. *)
Definition layout (m : metrics) : list (string * list string) :=
  map (λ '(category, g), (category, map fst g)) m.

Definition field_count (m : metrics) : nat := length (concat (map snd m)).

(** The four categories and the display labels of their tiles, in the order
    of the dictionary literal of [get_key_metrics]. *)
Definition documented_layout : list (string * list string) :=
  [ ("Valuation",
     ["Current Price"; "Market Cap"; "P/E Ratio"; "Price to Book"; "Forward P/E"]);
    ("Dividend", ["Dividend Yield"; "Dividend Rate"; "Payout Ratio"]);
    ("Performance", ["52-Week High"; "52-Week Low"; "1Y Return"]);
    ("Growth", ["EPS (Trailing)"; "EPS (Forward)"; "Revenue Growth"]) ].

(** The five fields whose default is the text [N/A]. *)
Definition currency_fields : list string :=
  ["currentPrice"; "marketCap"; "dividendRate"; "fiftyTwoWeekHigh"; "fiftyTwoWeekLow"].

(** The nine fields whose default is the number [0]. *)
Definition zero_default_fields : list string :=
  ["trailingPE"; "priceToBook"; "forwardPE"; "dividendYield"; "payoutRatio";
   "52WeekChange"; "trailingEps"; "forwardEps"; "revenueGrowth"].

(** [float(s.replace('%', ''))] of a text [s]. *)
Definition parsed_percent (s : string) : result number :=
  py_replace_percent (VStr s) ≫= py_float.

(** What [float] returns for a percent tile that printed the number [p]:
    [p] as a float, rounded to two places.  An [int] too large for a float
    prints no tile and is left as it is. *)
Definition tile_reading (p : number) : number :=
  match to_float p with
  | Some x => round2 x
  | None => p
  end.

(** The order of a number and an [int]. *)
Definition below (n : number) (k : Z) : Prop :=
  match n with
  | Int z => z < k
  | Float q => (q < inject_Z k)%Q
  | Infinity negative => negative = true
  end.

Definition above (n : number) (k : Z) : Prop :=
  match n with
  | Int z => k < z
  | Float q => (inject_Z k < q)%Q
  | Infinity negative => negative = false
  end.

Definition at_most (n : number) (k : Z) : Prop :=
  match n with
  | Int z => z <= k
  | Float q => (q <= inject_Z k)%Q
  | Infinity negative => negative = true
  end.

Definition at_least (n : number) (k : Z) : Prop :=
  match n with
  | Int z => k <= z
  | Float q => (inject_Z k <= q)%Q
  | Infinity negative => negative = false
  end.

(** The page entries of the three columns of "Quick Insights": each banner
    under its heading, for the numbers [pe], [d] and [g] that are compared
    with the thresholds. *)
Definition valuation_entries (pe : number) : list event :=
  [ Page (st_header "Quick Insights");
    Page (st_columns [1; 1; 1]);
    Page (st_write "🔍 **Valuation Indicator**");
    Page (banner (valuation_indicator pe)) ].

Definition dividend_entries (d : number) : list event :=
  [ Page (st_write "💰 **Dividend Health**");
    Page (banner (dividend_health d)) ].

Definition growth_entries (g : number) : list event :=
  [ Page (st_write "📈 **Growth Potential**");
    Page (banner (growth_potential g)) ].

(** The page entries of the "Quick Insights" part for a P/E tile [pe] and
    percent tiles that printed [dy] and [rg]. *)
Definition insights (pe dy rg : number) : list event :=
  [ Page (st_header "Quick Insights");
    Page (st_columns [1; 1; 1]);
    Page (st_write "🔍 **Valuation Indicator**");
    Page (banner (valuation_indicator pe));
    Page (st_write "💰 **Dividend Health**");
    Page (banner (dividend_health (tile_reading dy)));
    Page (st_write "📈 **Growth Potential**");
    Page (banner (growth_potential (tile_reading rg))) ].

(** The page entries of the tabs: the tab bar, then for each category its
    three columns and its tiles. *)
Definition tab_entries (m : metrics) : list event :=
  Page (st_tabs (map fst m))
  :: concat (map (λ '(_, g), Page (st_columns [1; 1; 1])
                             :: map (λ '(name, v), Page (st_metric name v)) g) m).

(** The entries of the chart step, given the provider's answer to the
    history request. *)
Definition chart_entries (ticker period : string) (answer : result DataFrame) : list event :=
  Fetch_history ticker period
  :: match answer ≫= λ df, price_figure ticker df <$> df_subscript df "Close" with
     | inr fig => [Page (st_plotly_chart fig true)]
     | inl e => [Page (st_error ("Error creating stock chart: " +:+ exn_text e))]
     end.

(** A computation that makes exactly the provider calls [l], however it
    ends; one that makes none is quiet. *)
Definition makes {A : Type} (l : list event) (c : M A) : Prop :=
  ∀ log, fetches (snd (c log)) = fetches log ++ l.

Definition quiet {A : Type} (c : M A) : Prop := makes [] c.

(** A computation that never raises. *)
Definition unfailing {A : Type} (c : M A) : Prop :=
  ∀ log, ∃ x, fst (c log) = inr x.

(** The provider calls one run of [main] can make, in order. *)
Definition fetch_plan (ticker : string) : list event :=
  [Fetch_info ticker; Fetch_info ticker; Fetch_history ticker "1y"].

(** The page entries [main] writes before it looks at its inputs. *)
Definition preamble : list event :=
  [ Page (st_set_page_config "Retail Investor Stock Analyzer" "💹" "wide");
    Page (st_title "🚀 Retail Investor Stock Analysis Tool");
    Page (st_write "Simple, essential metrics for individual investors");
    Page (st_columns [3; 1]);
    Page (st_text_input "Enter Stock Ticker" "e.g. INFY.NS, RELIANCE.NS");
    Page (st_write "");
    Page (st_button "Analyze Stock") ].

(** What a log shows: the charts drawn, the errors reported, the tiles. *)
Definition charts (log : list event) : list Figure :=
  omap (λ e, match e with Page (st_plotly_chart fig _) => Some fig | _ => None end) log.

Definition errors (log : list event) : list string :=
  omap (λ e, match e with Page (st_error body) => Some body | _ => None end) log.

Definition tiles_shown (log : list event) : list (string * pyval) :=
  omap (λ e, match e with Page (st_metric label v) => Some (label, v) | _ => None end) log.

(** *** Sample data *)

Definition sample_info : gmap string pyval :=
  list_to_map
    [ ("longName", VStr "Infosys Limited");
      ("currentPrice", VNum (float_lit 1523.4));
      ("marketCap", VNum (Int 6312345678901));
      ("trailingPE", VNum (float_lit 24.567));
      ("priceToBook", VNum (float_lit 7.891));
      ("forwardPE", VNum (float_lit 21.3));
      ("dividendYield", VNum (float_lit 0.030001));
      ("dividendRate", VNum (Int 34));
      ("payoutRatio", VNum (float_lit 0.5712));
      ("fiftyTwoWeekHigh", VNum (float_lit 1700.05));
      ("fiftyTwoWeekLow", VNum (Int 1200));
      ("52WeekChange", VNum (float_lit (-0.0512)));
      ("trailingEps", VNum (float_lit 62.01));
      ("forwardEps", VNum (float_lit 70.555));
      ("revenueGrowth", VNum (float_lit 0.1001)) ].

(** The metrics of the sample snapshot. *)
Definition sample_metrics : metrics :=
  Eval vm_compute in
    match key_metrics sample_info with
    | inr m => m
    | inl _ => []
    end.

(** The same snapshot without a current price. *)
Definition no_price_info : gmap string pyval := delete "currentPrice" sample_info.

(** The same snapshot without a trailing P/E. *)
Definition no_pe_info : gmap string pyval := delete "trailingPE" sample_info.

Definition sample_frame : DataFrame :=
  {| df_index := ["2024-01-01"; "2024-01-02"];
     df_columns :=
       {[ "Open" := [VNum (float_lit 1495); VNum (float_lit 1502.1)];
          "Close" := [VNum (float_lit 1500.5); VNum (float_lit 1510.25)] ]} |}.

(** A table with its columns and no rows. *)
Definition empty_frame : DataFrame :=
  {| df_index := []; df_columns := {[ "Open" := []; "Close" := [] ]} |}.

(** A table without a closing-price column. *)
Definition malformed_frame : DataFrame :=
  {| df_index := ["2024-01-01"]; df_columns := {[ "Open" := [VNum (Int 1)] ]} |}.

(** A provider that always answers with the same snapshot and table. *)
Definition steady (info : gmap string pyval) (df : DataFrame) : Provider :=
  {| info_of := λ _ _, inr info; history_of := λ _ _ _, inr df |}.

(** A provider whose every call raises. *)
Definition unreachable : Provider :=
  {| info_of := λ _ _, inl (Exn "ConnectionError" "provider unreachable");
     history_of := λ _ _ _, inl (Exn "ConnectionError" "provider unreachable") |}.

(** *** Further vocabulary *)

(** A field that holds a number, and a field that holds a number or is not
    there. *)
Definition numeric (o : option pyval) : bool :=
  match o with
  | Some (VNum _) => true
  | _ => false
  end.

Definition numeric_or_absent (o : option pyval) : bool :=
  match o with
  | None | Some (VNum _) => true
  | _ => false
  end.

(** A number that [:.2f] can print: every float, and an [int] that is not
    beyond the range of binary64. *)
Definition printable (n : number) : bool :=
  match n with
  | Int z => match float_of_int z with Some _ => true | None => false end
  | Float _ | Infinity _ => true
  end.

(** A price field holds a printable number; a fraction field holds a number
    whose hundredfold is printable, or is absent. *)
Definition printable_price (o : option pyval) : bool :=
  match o with
  | Some (VNum n) => printable n
  | _ => false
  end.

Definition printable_fraction (o : option pyval) : bool :=
  match o with
  | None => true
  | Some (VNum n) => printable (mul100 n)
  | _ => false
  end.

(** A snapshot from which the dictionary literal can be built. *)
Definition well_formed (info : gmap string pyval) : bool :=
  forallb (λ k, printable_price (info !! k))
    ["currentPrice"; "dividendRate"; "fiftyTwoWeekHigh"; "fiftyTwoWeekLow"]
  && numeric (info !! "marketCap")
  && forallb (λ k, numeric_or_absent (info !! k))
       ["trailingPE"; "priceToBook"; "forwardPE"; "trailingEps"; "forwardEps"]
  && forallb (λ k, printable_fraction (info !! k))
       ["dividendYield"; "payoutRatio"; "52WeekChange"; "revenueGrowth"].

(** Where each field with default 0 is shown, and what its tile shows when
    the field is absent. *)
Definition zero_default_tiles : list (string * (string * string * pyval)) :=
  [ ("trailingPE", ("Valuation", "P/E Ratio", VNum (Int 0)));
    ("priceToBook", ("Valuation", "Price to Book", VNum (Int 0)));
    ("forwardPE", ("Valuation", "Forward P/E", VNum (Int 0)));
    ("dividendYield", ("Dividend", "Dividend Yield", VStr "0.00%"));
    ("payoutRatio", ("Dividend", "Payout Ratio", VStr "0.00%"));
    ("52WeekChange", ("Performance", "1Y Return", VStr "0.00%"));
    ("trailingEps", ("Growth", "EPS (Trailing)", VNum (Int 0)));
    ("forwardEps", ("Growth", "EPS (Forward)", VNum (Int 0)));
    ("revenueGrowth", ("Growth", "Revenue Growth", VStr "0.00%")) ].

(** The banners of a log, in order. *)
Definition banners (log : list event) : list st_call :=
  omap (λ e, match e with
             | Page (st_success body) => Some (st_success body)
             | Page (st_info body) => Some (st_info body)
             | Page (st_warning body) => Some (st_warning body)
             | _ => None
             end) log.

(** A text of the form [:.2f] prints for a finite number: an optional minus
    sign, at least one digit, a point and exactly two digits. *)
Definition is_unsigned_fixed2 (s : string) : bool :=
  match split_point s with
  | (ip, Some fp) =>
      negb (String.length ip =? 0)%nat && all_chars is_digit ip
      && (String.length fp =? 2)%nat && all_chars is_digit fp
  | (_, None) => false
  end.

Definition is_fixed2 (s : string) : bool :=
  match s with
  | String c rest =>
      if Ascii.eqb c "-" then is_unsigned_fixed2 rest else is_unsigned_fixed2 s
  | EmptyString => false
  end.

(** [shows n s]: the text [s] is a faithful [:.2f] print of the number
    [n].  For a finite float it has two decimals and reads back as a decimal
    within half a hundredth of the float.  For an [int] the same holds of
    the float nearest to it, and below [2^53] in magnitude the text reads
    back as the [int] itself.  An infinity shows as [inf] or [-inf]. *)
Definition shows (n : number) (s : string) : Prop :=
  match n with
  | Int z =>
      ∃ d x, is_fixed2 s = true ∧ read_decimal s = Some d
             ∧ float_of_int z = Some x ∧ (Qabs (d - x) <= 1 # 200)%Q
             ∧ (Z.abs z < 2 ^ 53 → (d == inject_Z z)%Q)
  | Float q =>
      ∃ d, is_fixed2 s = true ∧ read_decimal s = Some d ∧ (Qabs (d - q) <= 1 # 200)%Q
  | Infinity negative => s = inf_text negative
  end.

(** The four prices printed with [:.2f] behind the currency sign, and the
    four percentages: the snapshot field and the place of its tile. *)
Definition price_tiles : list (string * (string * string)) :=
  [ ("currentPrice", ("Valuation", "Current Price"));
    ("dividendRate", ("Dividend", "Dividend Rate"));
    ("fiftyTwoWeekHigh", ("Performance", "52-Week High"));
    ("fiftyTwoWeekLow", ("Performance", "52-Week Low")) ].

Definition percent_tiles : list (string * (string * string)) :=
  [ ("dividendYield", ("Dividend", "Dividend Yield"));
    ("payoutRatio", ("Dividend", "Payout Ratio"));
    ("52WeekChange", ("Performance", "1Y Return"));
    ("revenueGrowth", ("Growth", "Revenue Growth")) ].

(** A provider that answers the first call of a run with the sample
    snapshot and raises on every later snapshot request. *)
Definition answers_once : Provider :=
  {| info_of := λ n _, if (n =? 0)%nat then inr sample_info
                       else inl (Exn "ConnectionError" "provider unreachable");
     history_of := λ _ _ _, inr sample_frame |}.

(** A provider that serves the snapshot and raises on the history request. *)
Definition no_history : Provider :=
  {| info_of := λ _ _, inr sample_info;
     history_of := λ _ _ _, inl (Exn "ConnectionError" "provider unreachable") |}.

End Vocabulary.

Import PyNum PyText Py App Vocabulary.

(** * Facts about the number and text layers *)

Section Rounding.

Lemma round_half_even_nonneg a d : 0 <= a → 0 <= round_half_even a d.
Proof.
  intros Ha. unfold round_half_even.
  assert (0 <= a / Z.pos d) by (apply Z.div_pos; lia).
  destruct (2 * (a mod Z.pos d) ?= Z.pos d); [destruct (Z.even _)| |]; lia.
Qed.

Lemma round_half_even_nonpos a d : a < 0 → round_half_even a d <= 0.
Proof.
  intros Ha. unfold round_half_even.
  assert (a / Z.pos d < 0) by (apply Z.div_lt_upper_bound; lia).
  destruct (2 * (a mod Z.pos d) ?= Z.pos d); [destruct (Z.even _)| |]; lia.
Qed.

Lemma hundredths_sign q :
  Z.abs (hundredths q) = if Qnum q <? 0 then - hundredths q else hundredths q.
Proof.
  unfold hundredths. destruct (Z.ltb_spec (Qnum q) 0) as [Hneg|Hpos].
  - pose proof (round_half_even_nonpos (Qnum q * 100) (Qden q)). lia.
  - pose proof (round_half_even_nonneg (Qnum q * 100) (Qden q)). lia.
Qed.

Lemma lt_int_spec n k : lt_int n k = true ↔ below n k.
Proof.
  unfold lt_int, below, compare_int. destruct n as [z|q|[]].
  - destruct (Z.compare_spec z k); split; intros; first [lia | done].
  - rewrite Qlt_alt. destruct (q ?= inject_Z k)%Q; split; congruence.
  - done.
  - done.
Qed.

Lemma gt_int_spec n k : gt_int n k = true ↔ above n k.
Proof.
  unfold gt_int, above, compare_int. destruct n as [z|q|[]].
  - destruct (Z.compare_spec z k); split; intros; first [lia | done].
  - rewrite Qgt_alt. destruct (q ?= inject_Z k)%Q; split; congruence.
  - done.
  - done.
Qed.

Lemma lt_int_false n k : lt_int n k = false ↔ at_least n k.
Proof.
  unfold lt_int, at_least, compare_int. destruct n as [z|q|[]].
  - destruct (Z.compare_spec z k); split; intros; first [lia | done].
  - change (inject_Z k <= q)%Q with (q >= inject_Z k)%Q. rewrite Qge_alt.
    destruct (q ?= inject_Z k)%Q; split; congruence.
  - done.
  - done.
Qed.

Lemma gt_int_false n k : gt_int n k = false ↔ at_most n k.
Proof.
  unfold gt_int, at_most, compare_int. destruct n as [z|q|[]].
  - destruct (Z.compare_spec z k); split; intros; first [lia | done].
  - rewrite Qle_alt. destruct (q ?= inject_Z k)%Q; split; congruence.
  - done.
  - done.
Qed.

End Rounding.

Section Decimal_text.

Lemma all_chars_app p s t :
  all_chars p (s +:+ t) = all_chars p s && all_chars p t.
Proof.
  induction s as [|c s IH]; simpl; [reflexivity|].
  rewrite IH. apply andb_assoc.
Qed.

Lemma all_chars_weaken (p p' : ascii → bool) s :
  (∀ c, p c = true → p' c = true) → all_chars p s = true → all_chars p' s = true.
Proof.
  intros Hpp'. induction s as [|c s IH]; simpl; [done|].
  rewrite !andb_true_iff. intros [Hc Hs]. auto.
Qed.

Lemma string_of_uint_digits d : all_chars is_digit (NilEmpty.string_of_uint d) = true.
Proof. induction d; simpl; auto. Qed.

Lemma digits_are_digits n : all_chars is_digit (digits n) = true.
Proof. apply string_of_uint_digits. Qed.

Lemma digit_is_digit d : 0 <= d < 10 → is_digit (digit d) = true.
Proof.
  intros Hd. unfold is_digit, digit. rewrite N_ascii_embedding by lia.
  apply andb_true_iff. split; [apply N.leb_le | apply N.leb_le]; lia.
Qed.

Lemma is_digit_not a : is_digit a = false → ∀ x, is_digit x = true → is_not a x = true.
Proof.
  intros Ha x Hx. unfold is_not. destruct (Ascii.eqb_spec x a) as [->|]; [congruence|done].
Qed.

Lemma remove_char_absent c s : all_chars (is_not c) s = true → remove_char c s = s.
Proof.
  induction s as [|a s IH]; simpl; [done|].
  rewrite andb_true_iff. intros [Ha Hs]. unfold is_not in Ha.
  destruct (Ascii.eqb a c); [done|]. by rewrite IH.
Qed.

Lemma remove_char_last c s :
  all_chars (is_not c) s = true → remove_char c (s +:+ String c "") = s.
Proof.
  induction s as [|a s IH]; simpl.
  - by rewrite Ascii.eqb_refl.
  - rewrite andb_true_iff. intros [Ha Hs]. unfold is_not in Ha.
    destruct (Ascii.eqb a c); [done|]. by rewrite IH.
Qed.

Lemma split_point_digits s t :
  all_chars is_digit s = true → split_point (s +:+ String "." t) = (s, Some t).
Proof.
  induction s as [|a s IH]; simpl; [done|].
  rewrite andb_true_iff. intros [Ha Hs].
  destruct (Ascii.eqb_spec a ".") as [->|]; [discriminate Ha|].
  by rewrite IH.
Qed.

Lemma read_digits_digits n : read_digits (digits n) = Some n.
Proof.
  unfold read_digits, digits. rewrite NilEmpty.usu. simpl.
  by rewrite DecimalN.Unsigned.of_to.
Qed.

Lemma digits_nonempty n : digits n ≠ EmptyString.
Proof.
  unfold digits. intros H.
  pose proof (NilEmpty.usu (N.to_uint n)) as Hu. rewrite H in Hu. simpl in Hu.
  injection Hu as Hu. pose proof (DecimalN.Unsigned.of_to n) as Hn. rewrite <- Hu in Hn.
  destruct n as [|p]; [vm_compute in Hu; discriminate|]. simpl in Hn. discriminate.
Qed.

Lemma read_two_digits k :
  0 <= k < 100 →
  read_digits (String (digit (k / 10)) (String (digit (k mod 10)) "")) = Some (Z.to_N k).
Proof.
  intros Hk. rewrite <- (Z2Nat.id k) by lia.
  assert (Z.to_nat k < 100)%nat as Hn by lia.
  generalize dependent (Z.to_nat k). clear. intros n Hn.
  do 100 (destruct n as [|n]; [vm_compute; reflexivity|]). lia.
Qed.

End Decimal_text.

Section Fixed_point_text.

Lemma read_unsigned_fixed h :
  0 <= h →
  read_unsigned
    (digits (Z.to_N (h / 100)) +:+ "."
       +:+ String (digit (h mod 100 / 10)) (String (digit (h mod 10)) ""))
  = Some (h # 100).
Proof.
  intros Hh. unfold read_unsigned.
  change ("." +:+ ?t) with (String "." t).
  rewrite split_point_digits by apply digits_are_digits. simpl default.
  replace ((String.length (digits (Z.to_N (h / 100))) =? 0)%nat && _) with false
    by (simpl; symmetry; apply andb_false_r).
  rewrite read_digits_digits. simpl.
  replace (h mod 10) with ((h mod 100) mod 10)
    by (apply Z.mod_mod_divide; by exists 10).
  rewrite read_two_digits by (apply Z.mod_pos_bound; lia). simpl.
  f_equal. f_equal.
  assert (0 <= h / 100) by (apply Z.div_pos; lia).
  assert (0 <= h mod 100 < 100) by (apply Z.mod_pos_bound; lia).
  rewrite !Z2N.id by lia. pose proof (Z.div_mod h 100). lia.
Qed.

(** Reading back what [:.2f] printed gives the two-place decimal it printed. *)
Lemma read_decimal_fixed2 q : read_decimal (fixed2 q) = Some (hundredths q # 100).
Proof.
  unfold fixed2. pose proof (hundredths_sign q) as Hs.
  assert (0 <= Z.abs (hundredths q)) as Hh by lia.
  destruct (Qnum q <? 0); simpl sign_prefix.
  - change ("-" +:+ ?t) with (String "-" t).
    change (read_decimal (String "-" ?t)) with (Qopp <$> read_unsigned t).
    rewrite read_unsigned_fixed by done. simpl. unfold Qopp. simpl.
    f_equal. f_equal. lia.
  - change ("" +:+ ?t) with t.
    pose proof (digits_nonempty (Z.to_N (Z.abs (hundredths q) / 100))) as Hne.
    pose proof (digits_are_digits (Z.to_N (Z.abs (hundredths q) / 100))) as Hd.
    pose proof (read_unsigned_fixed _ Hh) as Hr.
    destruct (digits _) as [|a s]; [done|].
    simpl in Hd. apply andb_true_iff in Hd as [Ha _].
    change (String a s +:+ ?t) with (String a (s +:+ t)) in *.
    unfold read_decimal.
    destruct (Ascii.eqb_spec a "-") as [->|_]; [discriminate Ha|].
    destruct (Ascii.eqb_spec a "+") as [->|_]; [discriminate Ha|].
    rewrite Hr. f_equal. f_equal. lia.
Qed.

Lemma fixed2_no_percent q : all_chars (is_not "%") (fixed2 q) = true.
Proof.
  unfold fixed2. rewrite !all_chars_app.
  assert (∀ c, is_digit c = true → is_not "%" c = true) as Hw
    by (apply is_digit_not; reflexivity).
  repeat (apply andb_true_iff; split); try reflexivity.
  - by destruct (Qnum q <? 0).
  - apply (all_chars_weaken _ _ _ Hw), digits_are_digits.
  - apply Hw, digit_is_digit.
    assert (0 <= Z.abs (hundredths q) mod 100 < 100) by (apply Z.mod_pos_bound; lia).
    split; [apply Z.div_pos; lia | apply Z.div_lt_upper_bound; lia].
  - apply Hw, digit_is_digit, Z.mod_pos_bound; lia.
Qed.

(** Dropping the percent sign and calling [float] on a percent tile always
    succeeds and gives the rounding to two places of what was printed. *)
Lemma percent_text_reads_back q :
  py_replace_percent (percent (fixed2 q)) ≫= py_float = inr (round2 (Float q)).
Proof.
  unfold percent. simpl py_replace_percent.
  rewrite (remove_char_last "%" (fixed2 q) (fixed2_no_percent q)).
  change (py_float (VStr (fixed2 q)) = inr (round2 (Float q))).
  unfold py_float, read_float. by rewrite read_decimal_fixed2.
Qed.

(** So does a tile that shows an infinity. *)
Lemma infinity_text_reads_back negative :
  py_replace_percent (percent (inf_text negative)) ≫= py_float = inr (Infinity negative).
Proof. by destruct negative. Qed.

(** Whatever [:.2f] printed for the number [n], the tile reads back as
    [tile_reading n]. *)
Lemma number_text_reads_back n s :
  number_fixed2 n = Some s →
  py_replace_percent (percent s) ≫= py_float = inr (tile_reading n).
Proof.
  unfold tile_reading. destruct n as [z|q|negative]; cbn [number_fixed2 to_float].
  - destruct (float_of_int z) as [x|]; [|done]. intros [= <-].
    apply percent_text_reads_back.
  - intros [= <-]. apply percent_text_reads_back.
  - intros [= <-]. apply infinity_text_reads_back.
Qed.

End Fixed_point_text.

(** * The printers on sample values

    The expected texts are what CPython 3.11 prints for the same literals. *)

Section Printer_samples.

Example rnd64_of_a_tenth : rnd64 0.1 = 3602879701896397 # 36028797018963968.
Proof. vm_compute. reflexivity. Qed.

(** [0.07 * 100] is [7.000000000000001], one unit in the last place above 7. *)
Example product_is_rounded :
  mul100 (float_lit 0.07) = Float (7 + (1 # 2 ^ 50)).
Proof. vm_compute. reflexivity. Qed.

Example round2_samples :
  map (λ q, number_str (round2 (float_lit q))) [2.675; 24.567; 70.555; 2.5]%Q
  = ["2.67"; "24.57"; "70.56"; "2.5"]
  ∧ round2 (Int 5) = Int 5.
Proof. split; vm_compute; reflexivity. Qed.

Example fixed2_samples :
  map (λ q, fixed2 (rnd64 q))
    [0.125; 0.375; -0.001; 0; 1234.5678; 2.675; 1e22; -17.995; 0.005; 0.015; 99.995]%Q
  = [ "0.12"; "0.38"; "-0.00"; "0.00"; "1234.57"; "2.67";
      "10000000000000000000000.00"; "-18.00"; "0.01"; "0.01"; "100.00" ].
Proof. vm_compute. reflexivity. Qed.

Example int_commas_samples :
  map int_commas [0; 5; -1234567; 999; 1000; 123456; -100000]
  = ["0"; "5"; "-1,234,567"; "999"; "1,000"; "123,456"; "-100,000"].
Proof. vm_compute. reflexivity. Qed.

Example float_commas_samples :
  map (λ q, float_commas (rnd64 q))
    [ 1234567.5; 0.1; 1e16; 1e15; 12345678901234567890; 0.0001; 0.00001;
      123.456789; -2.5; 1e23; 1234567; 5e-324; 123456789012345678;
      7.000000000000001; 1500000000000.75 ]%Q
  = [ "1,234,567.5"; "0.1"; "1e+16"; "1,000,000,000,000,000.0";
      "1.2345678901234567e+19"; "0.0001"; "1e-05"; "123.456789"; "-2.5"; "1e+23";
      "1,234,567.0"; "5e-324"; "1.2345678901234568e+17"; "7.000000000000001";
      "1,500,000,000,000.75" ].
Proof. vm_compute. reflexivity. Qed.

Example read_decimal_samples :
  map read_decimal ["3.00"; "-0.00"; "5"; "5."; ".5"; "+1.5"; ""; "."; "-"; "N/A"; "1.2.3"]
  = [ Some (300 # 100); Some (0 # 100); Some (5 # 1); Some (5 # 1); Some (5 # 10);
      Some (15 # 10); None; None; None; None; None ].
Proof. vm_compute. reflexivity. Qed.

(** The builtins on a text and on [None]. *)
Example builtins_on_text :
  format_2f (VStr "N/A")
  = inl (Exn "ValueError" "Unknown format code 'f' for object of type 'str'")
  ∧ format_comma (VStr "N/A") = inl (Exn "ValueError" "Cannot specify ',' with 's'.")
  ∧ py_round2 (VStr "N/A")
    = inl (Exn "TypeError" "type str doesn't define __round__ method")
  ∧ py_mul100 VNone
    = inl (Exn "TypeError" "unsupported operand type(s) for *: 'NoneType' and 'int'")
  ∧ py_float (VStr "N/A")
    = inl (Exn "ValueError" "could not convert string to float: 'N/A'").
Proof. repeat apply conj; reflexivity. Qed.

(** The edge of the binary64 range: the largest [int] that converts is
    [2^1024 - 2^970 - 1]; beyond it [:.2f] and [float] raise, while [:,] and
    [round] work on the [int] itself. *)
Example overflow_samples :
  float_of_int (2 ^ 1024 - 2 ^ 970) = None
  ∧ float_of_int (- (2 ^ 1024 - 2 ^ 970)) = None
  ∧ float_of_int (2 ^ 1024 - 2 ^ 970 - 1) = Some (inject_Z (2 ^ 1024 - 2 ^ 971))
  ∧ float_of_int (2 ^ 53 + 1) = Some (inject_Z (2 ^ 53))
  ∧ format_2f (VNum (Int (10 ^ 400)))
    = inl (Exn "OverflowError" "int too large to convert to float")
  ∧ (py_mul100 (VNum (Int (10 ^ 400))) ≫= format_2f)
    = inl (Exn "OverflowError" "int too large to convert to float")
  ∧ py_float (VNum (Int (10 ^ 400)))
    = inl (Exn "OverflowError" "int too large to convert to float")
  ∧ format_comma (VNum (Int (10 ^ 30))) = inr "1,000,000,000,000,000,000,000,000,000,000"
  ∧ py_round2 (VNum (Int (10 ^ 400))) = inr (VNum (Int (10 ^ 400))).
Proof. repeat apply conj; vm_compute; reflexivity. Qed.

(** A float product beyond the range is an infinity, which prints as [inf],
    rounds to itself, reads back from its text and lies beyond every
    threshold.  The expected values are those of CPython 3.11. *)
Example infinity_samples :
  mul100 (float_lit 1e308) = Infinity false
  ∧ mul100 (float_lit (-1e308)) = Infinity true
  ∧ mul100 (float_lit 1.7e306) = Float (inject_Z (2 ^ 971 * 8517715530038134))
  ∧ map (λ n, (format_2f (VNum n), format_comma (VNum n), py_str (VNum n), round2 n))
        [Infinity false; Infinity true]
    = [ (inr "inf", inr "inf", "inf", Infinity false);
        (inr "-inf", inr "-inf", "-inf", Infinity true) ]
  ∧ map (λ s, py_float (VStr s)) ["inf"; "-inf"; "+INF"; "Infinity"; "-iNfInItY"]
    = [ inr (Infinity false); inr (Infinity true); inr (Infinity false);
        inr (Infinity false); inr (Infinity true) ]
  ∧ py_float (VStr "infinit")
    = inl (Exn "ValueError" "could not convert string to float: 'infinit'")
  ∧ py_float (VStr "nan") = inl (Exn "ValueError" "could not convert string to float: 'nan'")
  ∧ py_float (VStr ("1" +:+ zeros 400)) = inr (Infinity false)
  ∧ py_float (VStr ("-1" +:+ zeros 400 +:+ ".5")) = inr (Infinity true)
  ∧ map (λ n, (lt_int n 15, gt_int n 25)) [Infinity false; Infinity true; Int 15; Int 26]
    = [(false, true); (true, false); (false, false); (false, true)].
Proof. repeat apply conj; vm_compute; reflexivity. Qed.

End Printer_samples.

(** * Facts about the program *)

Section Key_metrics.

Lemma percent_field v :
  py_mul100 v ≫= format_2f =
  match v with
  | VNum n => format_2f (VNum (mul100 n))
  | VStr _ => inl (Exn "ValueError" "Unknown format code 'f' for object of type 'str'")
  | VNone => inl (Exn "TypeError" "unsupported operand type(s) for *: 'NoneType' and 'int'")
  end.
Proof. by destruct v. Qed.

Lemma format_2f_text v s :
  format_2f v = inr s ↔ ∃ n, v = VNum n ∧ number_fixed2 n = Some s.
Proof.
  split.
  - destruct v as [n| |]; [|done|done]. cbn [format_2f].
    destruct (number_fixed2 n) as [t|] eqn:Hn; [|done].
    unfold mret, result_ret. intros [= <-]. by exists n.
  - intros (n & -> & Hs). cbn [format_2f]. by rewrite Hs.
Qed.

Ltac read_field k d :=
  let n := fresh "n" in
  let E := fresh "E" in
  destruct (dict_get _ k d) as [n| |] eqn:E; [|by intros|by intros].

Ltac print_field n :=
  let s := fresh "s" in
  let E := fresh "E" in
  cbn [format_2f]; destruct (number_fixed2 n) as [s|] eqn:E; [|by intros].

Lemma key_metrics_tiles info m : key_metrics info = inr m ↔ tiles_of info m.
Proof.
  split.
  - unfold key_metrics. rewrite !percent_field.
    read_field "currentPrice" (VStr "N/A"). print_field n.
    read_field "marketCap" (VStr "N/A").
    read_field "trailingPE" (VNum (Int 0)).
    read_field "priceToBook" (VNum (Int 0)).
    read_field "forwardPE" (VNum (Int 0)).
    read_field "dividendYield" (VNum (Int 0)). print_field (mul100 n4).
    read_field "dividendRate" (VStr "N/A"). print_field n5.
    read_field "payoutRatio" (VNum (Int 0)). print_field (mul100 n6).
    read_field "fiftyTwoWeekHigh" (VStr "N/A"). print_field n7.
    read_field "fiftyTwoWeekLow" (VStr "N/A"). print_field n8.
    read_field "52WeekChange" (VNum (Int 0)). print_field (mul100 n9).
    read_field "trailingEps" (VNum (Int 0)).
    read_field "forwardEps" (VNum (Int 0)).
    read_field "revenueGrowth" (VNum (Int 0)). print_field (mul100 n12).
    intros [= <-]. by econstructor.
  - intros []. unfold key_metrics. rewrite !percent_field.
    repeat match goal with H : dict_get _ _ _ = _ |- _ => rewrite H; clear H end.
    cbn [format_2f].
    repeat match goal with H : number_fixed2 _ = _ |- _ => rewrite H; clear H end.
    reflexivity.
Qed.

End Key_metrics.

Section Runs.

Context (P : Provider) (ticker : string).

Lemma get_key_metrics_run log :
  get_key_metrics P ticker log =
  match info_of P (length (fetches log)) ticker ≫= key_metrics with
  | inr m => (inr (Some m), log ++ [Fetch_info ticker])
  | inl e =>
      (inr None,
       log ++ [Fetch_info ticker;
               Page (st_error ("Error fetching stock data: " +:+ exn_text e))])
  end.
Proof.
  unfold get_key_metrics, try_except, stock_info, mbind, M_bind, lift, emit.
  destruct (info_of P _ ticker) as [e|info]; simpl.
  - by rewrite <- app_assoc.
  - destruct (key_metrics info) as [e|m]; simpl; [by rewrite <- app_assoc|done].
Qed.

Lemma plot_price_history_run period log :
  plot_price_history P ticker period log =
  match history_of P (length (fetches log)) ticker period
        ≫= λ df, price_figure ticker df <$> df_subscript df "Close" with
  | inr fig => (inr (Some fig), log ++ [Fetch_history ticker period])
  | inl e =>
      (inr None,
       log ++ [Fetch_history ticker period;
               Page (st_error ("Error creating stock chart: " +:+ exn_text e))])
  end.
Proof.
  unfold plot_price_history, try_except, yf_download, mbind, M_bind, lift, emit.
  destruct (history_of P _ ticker period) as [e|df]; simpl.
  - by rewrite <- app_assoc.
  - destruct (df_subscript df "Close") as [e|close]; simpl; [by rewrite <- app_assoc|done].
Qed.

End Runs.

Section Quick_insights.

Lemma quick_insights_run info m log :
  tiles_of info m →
  ∃ pe dy rg,
    dict_get info "trailingPE" (VNum (Int 0)) = VNum pe
    ∧ dict_get info "dividendYield" (VNum (Int 0)) = VNum dy
    ∧ dict_get info "revenueGrowth" (VNum (Int 0)) = VNum rg
    ∧ tile m "Valuation" "P/E Ratio" = inr (VNum (round2 pe))
    ∧ percent_tile m "Dividend" "Dividend Yield" = inr (tile_reading (mul100 dy))
    ∧ percent_tile m "Growth" "Revenue Growth" = inr (tile_reading (mul100 rg))
    ∧ quick_insights m log
      = (inr (), log ++ insights (round2 pe) (mul100 dy) (mul100 rg)).
Proof.
  intros [cp mc pe pb fpe dy dr pr hi lo ch te fe rg
            price yield rate payout high low change growth
            _ _ Hpe _ _ Hdy _ _ _ _ _ _ _ Hrg _ Hyield _ _ _ _ _ Hgrowth].
  exists pe, dy, rg.
  match goal with |- context [tile ?l _ _] => set (tiles := l) end.
  assert (percent_tile tiles "Dividend" "Dividend Yield" = inr (tile_reading (mul100 dy)))
    as Hd by exact (number_text_reads_back (mul100 dy) yield Hyield).
  assert (percent_tile tiles "Growth" "Revenue Growth" = inr (tile_reading (mul100 rg)))
    as Hg by exact (number_text_reads_back (mul100 rg) growth Hgrowth).
  repeat (split; [done|]).
  unfold quick_insights, mbind at 1 2 3 4 5 6 7 8 9 10, M_bind, emit, lift.
  rewrite Hd, Hg. simpl. rewrite <- !app_assoc. reflexivity.
Qed.

(** The tile of a float fraction reads back as the rounded product. *)
Lemma tile_reading_product q :
  tile_reading (mul100 (Float q)) = round2 (mul100 (Float q)).
Proof. unfold tile_reading, mul100, nearest_float. by destruct (overflows _). Qed.

(** The "Quick Insights" part step by step: each column reads its tile,
    and the first reading that raises ends the part under its heading. *)
Lemma quick_insights_steps m log :
  quick_insights m log =
  match tile m "Valuation" "P/E Ratio" ≫= py_number "<" with
  | inl e =>
      (inl e, log ++ [ Page (st_header "Quick Insights"); Page (st_columns [1; 1; 1]);
                       Page (st_write "🔍 **Valuation Indicator**") ])
  | inr pe =>
      match percent_tile m "Dividend" "Dividend Yield" with
      | inl e =>
          (inl e, log ++ valuation_entries pe ++ [Page (st_write "💰 **Dividend Health**")])
      | inr d =>
          match percent_tile m "Growth" "Revenue Growth" with
          | inl e =>
              (inl e, log ++ valuation_entries pe ++ dividend_entries d
                          ++ [Page (st_write "📈 **Growth Potential**")])
          | inr g =>
              (inr (), log ++ valuation_entries pe ++ dividend_entries d ++ growth_entries g)
          end
      end
  end.
Proof.
  unfold quick_insights.
  generalize (tile m "Valuation" "P/E Ratio" ≫= py_number "<").
  generalize (percent_tile m "Dividend" "Dividend Yield").
  generalize (percent_tile m "Growth" "Revenue Growth").
  unfold mbind, M_bind, emit, lift, valuation_entries, dividend_entries, growth_entries.
  intros [e3|g] [e2|d] [e1|pe]; simpl; rewrite <- ?app_assoc; reflexivity.
Qed.

End Quick_insights.

Section Provider_calls.

Lemma fetches_app l1 l2 : fetches (l1 ++ l2) = fetches l1 ++ fetches l2.
Proof. apply List.filter_app. Qed.

Lemma quiet_ret {A} (x : A) : quiet (mret x).
Proof. intros log. simpl. by rewrite app_nil_r. Qed.

Lemma quiet_lift {A} (r : result A) : quiet (lift r).
Proof. intros log. simpl. by rewrite app_nil_r. Qed.

Lemma quiet_emit c : quiet (emit c).
Proof. intros log. unfold emit. simpl. by rewrite fetches_app. Qed.

Lemma quiet_bind {A B} (m : M A) (f : A → M B) :
  quiet m → (∀ x, quiet (f x)) → quiet (m ≫= f).
Proof.
  intros Hm Hf log. unfold mbind, M_bind. specialize (Hm log).
  destruct (m log) as [[e|x] log']; simpl in *; [done|].
  rewrite Hf, Hm. by rewrite !app_nil_r.
Qed.

Lemma quiet_for_each {A} (l : list A) (body : A → M unit) :
  (∀ x, quiet (body x)) → quiet (for_each l body).
Proof.
  intros Hbody. induction l as [|x l IH]; simpl.
  - apply quiet_ret.
  - apply quiet_bind; auto.
Qed.

Lemma makes_bind {A B} l1 l2 (m : M A) (f : A → M B) :
  unfailing m → makes l1 m → (∀ x, makes l2 (f x)) → makes (l1 ++ l2) (m ≫= f).
Proof.
  intros Hu Hm Hf log. unfold mbind, M_bind.
  specialize (Hm log). destruct (Hu log) as [x Hx].
  destruct (m log) as [[e|y] log']; simpl in *; [done|].
  by rewrite Hf, Hm, app_assoc.
Qed.

Lemma unfailing_emit c : unfailing (emit c).
Proof. intros log. by exists (). Qed.

Lemma unfailing_bind {A B} (m : M A) (f : A → M B) :
  unfailing m → (∀ x, unfailing (f x)) → unfailing (m ≫= f).
Proof.
  intros Hm Hf log. unfold mbind, M_bind. destruct (Hm log) as [x Hx].
  destruct (m log) as [[e|y] log']; simpl in *; [done|]. apply Hf.
Qed.

Lemma unfailing_for_each {A} (l : list A) (body : A → M unit) :
  (∀ x, unfailing (body x)) → unfailing (for_each l body).
Proof.
  intros Hbody. induction l as [|x l IH]; simpl.
  - intros log. by exists ().
  - apply unfailing_bind; auto.
Qed.

Lemma quiet_show_tabs m : quiet (show_tabs m).
Proof.
  unfold show_tabs. apply quiet_bind; [apply quiet_emit|]. intros _.
  apply quiet_for_each. intros [category g].
  apply quiet_bind; [apply quiet_emit|]. intros _.
  apply quiet_for_each. intros [name v]. apply quiet_emit.
Qed.

Lemma unfailing_show_tabs m : unfailing (show_tabs m).
Proof.
  unfold show_tabs. apply unfailing_bind; [apply unfailing_emit|]. intros _.
  apply unfailing_for_each. intros [category g].
  apply unfailing_bind; [apply unfailing_emit|]. intros _.
  apply unfailing_for_each. intros [name v]. apply unfailing_emit.
Qed.

Lemma quiet_quick_insights m : quiet (quick_insights m).
Proof.
  unfold quick_insights.
  repeat first [ apply quiet_emit | apply quiet_lift
               | apply quiet_bind; [|intros ?] ].
Qed.

Lemma get_key_metrics_fetches P ticker : makes [Fetch_info ticker] (get_key_metrics P ticker).
Proof.
  intros log. rewrite get_key_metrics_run.
  destruct (_ ≫= key_metrics); simpl; by rewrite fetches_app.
Qed.

Lemma plot_price_history_fetches P ticker period :
  makes [Fetch_history ticker period] (plot_price_history P ticker period).
Proof.
  intros log. rewrite plot_price_history_run.
  destruct (_ ≫= _); simpl; by rewrite fetches_app.
Qed.

Lemma unfailing_plot_price_history P ticker period :
  unfailing (plot_price_history P ticker period).
Proof.
  intros log. rewrite plot_price_history_run.
  destruct (_ ≫= _); simpl; eauto.
Qed.

(** After the second snapshot fetch only the history fetch remains. *)
Lemma render_fetches P ticker (info : gmap string pyval) m :
  makes [Fetch_history ticker "1y"]
    (emit (st_header ("📊 " +:+ py_str (dict_get info "longName" (VStr ticker))));;
     show_tabs m;;
     emit (st_header "Stock Price History");;
     price_history ← plot_price_history P ticker "1y";
     match price_history with
     | Some fig => emit (st_plotly_chart fig true)
     | None => mret ()
     end;;
     quick_insights m).
Proof.
  apply (makes_bind [] _); [apply unfailing_emit|apply quiet_emit|intros _].
  apply (makes_bind [] _); [apply unfailing_show_tabs|apply quiet_show_tabs|intros _].
  apply (makes_bind [] _); [apply unfailing_emit|apply quiet_emit|intros _].
  apply (makes_bind [_] []);
    [apply unfailing_plot_price_history|apply plot_price_history_fetches|intros ph].
  apply quiet_bind; [destruct ph; [apply quiet_emit|apply quiet_ret]|intros _].
  apply quiet_quick_insights.
Qed.

Lemma analyze_fetches P ticker log :
  ∃ k, (1 <= k <= 3)%nat
       ∧ fetches (snd (analyze P ticker log)) = fetches log ++ take k (fetch_plan ticker).
Proof.
  unfold analyze, mbind at 1, M_bind.
  pose proof (get_key_metrics_fetches P ticker log) as H1.
  destruct (get_key_metrics P ticker log) as [[e|[[|g m]|]] log1]; simpl in H1;
    try (exists 1%nat; split; [lia|done]).
  unfold mbind at 1, M_bind, stock_info.
  destruct (info_of P _ ticker) as [e|info]; simpl.
  { exists 2%nat. split; [lia|]. rewrite fetches_app, H1, <- app_assoc. done. }
  exists 3%nat. split; [lia|].
  rewrite (render_fetches P ticker info (g :: m) _), fetches_app, H1.
  by rewrite <- !app_assoc.
Qed.

(** [main] writes the fixed part of the page and then analyses, or not. *)
Lemma main_run P ticker analyze_button log :
  main P ticker analyze_button log
  = (if truthy ticker || analyze_button then analyze P ticker else mret ())
      (log ++ preamble).
Proof.
  unfold main, preamble, mbind at 1 2 3 4 5 6 7, M_bind, emit. simpl.
  by rewrite <- !app_assoc.
Qed.

End Provider_calls.

Section Whole_run.

Lemma bind_ok {A B} (m : M A) (f : A → M B) log x log' :
  m log = (inr x, log') → (m ≫= f) log = f x log'.
Proof. intros H. unfold mbind, M_bind. by rewrite H. Qed.

Lemma tiles_loop (g : metric_group) log :
  for_each g (λ '(name, v), emit (st_metric name v)) log
  = (inr (), log ++ map (λ '(name, v), Page (st_metric name v)) g).
Proof.
  revert log. induction g as [|[name v] g IH]; intros log; simpl.
  - by rewrite app_nil_r.
  - rewrite (bind_ok _ _ _ () (log ++ [Page (st_metric name v)])) by done.
    rewrite IH. by rewrite <- app_assoc.
Qed.

Lemma categories_loop (m : metrics) log :
  for_each m (λ '(category, category_metrics),
    emit (st_columns [1; 1; 1]);;
    for_each category_metrics (λ '(name, v), emit (st_metric name v))) log
  = (inr (),
     log ++ concat (map (λ '(_, g), Page (st_columns [1; 1; 1])
                                    :: map (λ '(name, v), Page (st_metric name v)) g) m)).
Proof.
  revert log. induction m as [|[category g] m IH]; intros log; simpl.
  - by rewrite app_nil_r.
  - rewrite (bind_ok _ _ _ () (log ++ Page (st_columns [1; 1; 1])
                                   :: map (λ '(name, v), Page (st_metric name v)) g)).
    + rewrite IH. by rewrite <- app_assoc.
    + rewrite (bind_ok _ _ _ () (log ++ [Page (st_columns [1; 1; 1])])) by done.
      rewrite tiles_loop. by rewrite <- app_assoc.
Qed.

Lemma show_tabs_run m log : show_tabs m log = (inr (), log ++ tab_entries m).
Proof.
  unfold show_tabs, tab_entries.
  rewrite (bind_ok _ _ _ () (log ++ [Page (st_tabs (map fst m))])) by done.
  rewrite categories_loop. by rewrite <- app_assoc.
Qed.

Lemma fetches_tab_entries m : fetches (tab_entries m) = [].
Proof.
  unfold tab_entries. simpl. induction m as [|[category g] m IH]; simpl; [done|].
  rewrite fetches_app, IH, app_nil_r. clear. induction g as [|[name v] g IH]; simpl; done.
Qed.

(** A run of the analysis in which both snapshot fetches succeed and the
    first snapshot gives the metrics [m]: the whole log. *)
Lemma analyze_run P ticker log info info' m :
  info_of P (length (fetches log)) ticker = inr info →
  key_metrics info = inr m →
  info_of P (S (length (fetches log))) ticker = inr info' →
  ∃ pe dy rg,
    dict_get info "trailingPE" (VNum (Int 0)) = VNum pe
    ∧ dict_get info "dividendYield" (VNum (Int 0)) = VNum dy
    ∧ dict_get info "revenueGrowth" (VNum (Int 0)) = VNum rg
    ∧ analyze P ticker log
      = (inr (),
         log ++ [ Fetch_info ticker; Fetch_info ticker;
                  Page (st_header ("📊 " +:+ py_str (dict_get info' "longName" (VStr ticker)))) ]
             ++ tab_entries m
             ++ [Page (st_header "Stock Price History")]
             ++ chart_entries ticker "1y"
                  (history_of P (S (S (length (fetches log)))) ticker "1y")
             ++ insights (round2 pe) (mul100 dy) (mul100 rg)).
Proof.
  intros Hinfo Hm Hinfo'.
  pose proof (proj1 (key_metrics_tiles info m) Hm) as Htiles.
  destruct (quick_insights_run info m [] Htiles) as (pe & dy & rg & Hpe & Hdy & Hrg & _).
  exists pe, dy, rg. repeat (split; [done|]).
  unfold analyze.
  rewrite (bind_ok _ _ _ (Some m) (log ++ [Fetch_info ticker]))
    by (rewrite get_key_metrics_run, Hinfo; simpl; by rewrite Hm).
  destruct m as [|g m']; [inversion Htiles|]. cbv iota beta.
  assert (fetches (log ++ [Fetch_info ticker]) = fetches log ++ [Fetch_info ticker]) as Hf1
    by apply fetches_app.
  rewrite (bind_ok (stock_info P ticker) _ _ info'
             (log ++ [Fetch_info ticker; Fetch_info ticker])).
  2:{ unfold stock_info. rewrite Hf1, length_app, Nat.add_1_r, Hinfo'.
      by rewrite <- app_assoc. }
  rewrite (bind_ok (emit _) _ _ () _ eq_refl).
  rewrite (bind_ok (show_tabs _) _ _ () _ (show_tabs_run _ _)).
  rewrite (bind_ok (emit _) _ _ () _ eq_refl).
  match goal with |- (_ ≫= _) ?l = _ => set (log3 := l) end.
  assert (length (fetches log3) = S (S (length (fetches log)))) as Hf3.
  { unfold log3. rewrite !fetches_app, fetches_tab_entries. simpl.
    rewrite !app_nil_r, length_app. simpl. lia. }
  pose proof (plot_price_history_run P ticker "1y" log3) as Hplot.
  rewrite Hf3 in Hplot. unfold chart_entries.
  destruct (history_of P _ ticker "1y" ≫= _) as [e|fig].
  - rewrite (bind_ok _ _ _ _ _ Hplot). cbv iota beta.
    rewrite (bind_ok (mret ()) _ _ () _ eq_refl).
    destruct (quick_insights_run info (g :: m') (log3 ++
       [Fetch_history ticker "1y";
        Page (st_error ("Error creating stock chart: " +:+ exn_text e))]) Htiles)
      as (pe' & dy' & rg' & Hpe' & Hdy' & Hrg' & _ & _ & _ & ->).
    rewrite Hpe in Hpe'. rewrite Hdy in Hdy'. rewrite Hrg in Hrg'.
    injection Hpe' as <-. injection Hdy' as <-. injection Hrg' as <-.
    unfold log3. by rewrite <- !app_assoc.
  - rewrite (bind_ok _ _ _ _ _ Hplot). cbv iota beta.
    rewrite (bind_ok (emit _) _ _ () _ eq_refl).
    destruct (quick_insights_run info (g :: m')
                ((log3 ++ [Fetch_history ticker "1y"]) ++ [Page (st_plotly_chart fig true)])
                Htiles)
      as (pe' & dy' & rg' & Hpe' & Hdy' & Hrg' & _ & _ & _ & ->).
    rewrite Hpe in Hpe'. rewrite Hdy in Hdy'. rewrite Hrg in Hrg'.
    injection Hpe' as <-. injection Hdy' as <-. injection Hrg' as <-.
    unfold log3. by rewrite <- !app_assoc.
Qed.

End Whole_run.

Section Banners.

Ltac order_facts :=
  repeat match goal with
    | H : lt_int _ _ = true |- _ => apply lt_int_spec in H
    | H : gt_int _ _ = true |- _ => apply gt_int_spec in H
    | H : lt_int _ _ = false |- _ => apply lt_int_false in H
    | H : gt_int _ _ = false |- _ => apply gt_int_false in H
    end.

Lemma valuation_cases p :
  (below p 15
   ∧ valuation_indicator p = Verdict Success "Low P/E - Potentially Undervalued")
  ∨ ((at_least p 15 ∧ at_most p 25)
     ∧ valuation_indicator p = Verdict Info "Reasonable Valuation")
  ∨ (above p 25
     ∧ valuation_indicator p = Verdict Warning "High P/E - Potentially Overvalued").
Proof.
  unfold valuation_indicator.
  destruct (lt_int p 15) eqn:Hlo; [|destruct (gt_int p 25) eqn:Hhi]; order_facts;
    [left|right; right|right; left]; repeat split; done.
Qed.

Lemma dividend_cases d :
  (above d 3 ∧ dividend_health d = Verdict Success "High Dividend Yield")
  ∨ ((above d 1 ∧ at_most d 3) ∧ dividend_health d = Verdict Info "Moderate Dividend")
  ∨ (at_most d 1 ∧ dividend_health d = Verdict Warning "Low Dividend Yield").
Proof.
  unfold dividend_health.
  destruct (gt_int d 3) eqn:Hhi; [|destruct (gt_int d 1) eqn:Hlo]; order_facts;
    [left|right; left|right; right]; repeat split; done.
Qed.

Lemma growth_cases g :
  (above g 10 ∧ growth_potential g = Verdict Success "Strong Growth Potential")
  ∨ ((above g 5 ∧ at_most g 10) ∧ growth_potential g = Verdict Info "Moderate Growth")
  ∨ (at_most g 5 ∧ growth_potential g = Verdict Warning "Limited Growth").
Proof.
  unfold growth_potential.
  destruct (gt_int g 10) eqn:Hhi; [|destruct (gt_int g 5) eqn:Hlo]; order_facts;
    [left|right; left|right; right]; repeat split; done.
Qed.

End Banners.

(** Settles an equivalence between a banner and a range of the number [p]
    once the case of the banner is known. *)
Ltac by_range p :=
  split; intros;
  repeat match goal with H : _ ∧ _ |- _ => destruct H end;
  first [ discriminate | reflexivity
        | destruct p as [?|?|[]];
          cbn [below above at_least at_most] in *; unfold inject_Z in *;
          first [ done | lia | lra | split; lia | split; lra ] ].

(** * The defaults of the snapshot fields *)

Section Defaults.

(** A field whose default is the number 0 may as well be present with the
    value 0: the tiles are the same. *)
Lemma absent_zero_default info k :
  k ∈ zero_default_fields → info !! k = None →
  key_metrics (<[k := VNum (Int 0)]> info) = key_metrics info.
Proof.
  intros Hk Habsent.
  assert (∀ k' d, (k' = k → d = VNum (Int 0)) →
                  dict_get (<[k := VNum (Int 0)]> info) k' d = dict_get info k' d) as Hget.
  { intros k' d Hd. unfold dict_get. destruct (decide (k' = k)) as [->|Hne].
    - rewrite lookup_insert_eq, Habsent. simpl. by rewrite Hd.
    - by rewrite lookup_insert_ne. }
  unfold key_metrics.
  repeat (apply elem_of_cons in Hk as [->|Hk]; [rewrite !Hget by done; reflexivity|]).
  by apply elem_of_nil in Hk.
Qed.

(** A field whose default is the text [N/A] must be present: without it the
    dictionary literal raises. *)
Lemma absent_currency_field info k :
  k ∈ currency_fields → info !! k = None → ∃ e, key_metrics info = inl e.
Proof.
  intros Hk Habsent. destruct (key_metrics info) as [e|m] eqn:Hm; [by exists e|].
  exfalso. apply key_metrics_tiles in Hm.
  destruct Hm as [cp mc pe pb fpe dy dr pr hi lo ch te fe rg
                    price yield rate payout high low change growth
                    Hcp Hmc _ _ _ _ Hdr _ Hhi Hlo _ _ _ _ _ _ _ _ _ _ _ _].
  unfold dict_get in *.
  repeat (apply elem_of_cons in Hk as [->|Hk];
          [rewrite Habsent in *; discriminate|]).
  by apply elem_of_nil in Hk.
Qed.

(** With the five currency-style fields present and nothing else, every
    other tile shows its default. *)
Example defaults_of_a_bare_snapshot :
  key_metrics
    (list_to_map
       [ ("currentPrice", VNum (float_lit 101.5)); ("marketCap", VNum (Int 2500000));
         ("dividendRate", VNum (Int 2)); ("fiftyTwoWeekHigh", VNum (float_lit 120.25));
         ("fiftyTwoWeekLow", VNum (Int 80)) ])
  = inr
      [ ("Valuation",
         [ ("Current Price", VStr "₹101.50"); ("Market Cap", VStr "₹2,500,000");
           ("P/E Ratio", VNum (Int 0)); ("Price to Book", VNum (Int 0));
           ("Forward P/E", VNum (Int 0)) ]);
        ("Dividend",
         [ ("Dividend Yield", VStr "0.00%"); ("Dividend Rate", VStr "₹2.00");
           ("Payout Ratio", VStr "0.00%") ]);
        ("Performance",
         [ ("52-Week High", VStr "₹120.25"); ("52-Week Low", VStr "₹80.00");
           ("1Y Return", VStr "0.00%") ]);
        ("Growth",
         [ ("EPS (Trailing)", VNum (Int 0)); ("EPS (Forward)", VNum (Int 0));
           ("Revenue Growth", VStr "0.00%") ]) ].
Proof. vm_compute. reflexivity. Qed.

End Defaults.

(** * The claims *)

(** C1 (defect in the code).  The claim: a snapshot that lacks a field still
    yields the full metrics, with ["N/A"] standing in for a currency-style
    field.  The code does supply ["N/A"] as the default, but then formats it
    with [:.2f] (or [:,]), which raises on a string; the handler reports the
    error and returns [None].  Evaluated here on the sample snapshot with
    each of the five currency-style fields removed in turn, and in full for
    the missing current price. *)
Theorem C1_missing_currency_field_is_a_failure :
  Forall
    (λ k, fst (run (get_key_metrics (steady (delete k sample_info) sample_frame) "INFY.NS"))
          = inr None)
    currency_fields
  ∧ run (get_key_metrics (steady no_price_info sample_frame) "INFY.NS")
    = (inr None,
       [ Fetch_info "INFY.NS";
         Page (st_error
           "Error fetching stock data: Unknown format code 'f' for object of type 'str'") ]).
Proof.
  split.
  - repeat constructor; vm_compute; reflexivity.
  - vm_compute. reflexivity.
Qed.

(** C2 (amended).  The Valuation banner for a P/E tile [p] is
    [st.success] exactly when [p < 15], [st.warning] exactly when [p > 25]
    and [st.info] with "Reasonable Valuation" exactly in between, both
    bounds included; it is written right under the Valuation heading of
    "Quick Insights".  15.00 and 25.00 are reasonable, 14.99 is undervalued,
    25.01 is overvalued.  The texts of the two outer banners are
    "Low P/E - Potentially Undervalued" and
    "High P/E - Potentially Overvalued". *)
Theorem C2_valuation_thresholds (p : number) :
  (banner (valuation_indicator p) = st_success "Low P/E - Potentially Undervalued"
     ↔ below p 15)
  ∧ (banner (valuation_indicator p) = st_warning "High P/E - Potentially Overvalued"
     ↔ above p 25)
  ∧ (banner (valuation_indicator p) = st_info "Reasonable Valuation"
     ↔ at_least p 15 ∧ at_most p 25)
  ∧ (∀ m log, tile m "Valuation" "P/E Ratio" = inr (VNum p) →
       ∃ rest, snd (quick_insights m log) = log ++ valuation_entries p ++ rest)
  ∧ map (λ q, banner (valuation_indicator (float_lit q))) [15.00; 25.00; 14.99; 25.01]%Q
    = [ st_info "Reasonable Valuation";
        st_info "Reasonable Valuation";
        st_success "Low P/E - Potentially Undervalued";
        st_warning "High P/E - Potentially Overvalued" ].
Proof.
  split; [|split; [|split; [|split]]].
  - destruct (valuation_cases p) as [[H ->]|[[H ->]|[H ->]]]; by_range p.
  - destruct (valuation_cases p) as [[H ->]|[[H ->]|[H ->]]]; by_range p.
  - destruct (valuation_cases p) as [[H ->]|[[H ->]|[H ->]]]; by_range p.
  - intros m log Htile. rewrite quick_insights_steps, Htile.
    change (inr (VNum p) ≫= py_number "<") with (inr (B := number) (A := exn) p).
    destruct (percent_tile m "Dividend" "Dividend Yield") as [e|d];
      [|destruct (percent_tile m "Growth" "Revenue Growth") as [e|g]];
      eexists; cbn [snd]; reflexivity.
  - vm_compute. reflexivity.
Qed.

Lemma C2_witness :
  key_metrics sample_info = inr sample_metrics
  ∧ (∃ rest, snd (quick_insights sample_metrics [])
             = [] ++ valuation_entries (round2 (float_lit 24.567)) ++ rest)
  ∧ banner (valuation_indicator (round2 (float_lit 24.567)))
    = st_info "Reasonable Valuation".
Proof.
  pose proof (C2_valuation_thresholds (round2 (float_lit 24.567)))
    as (_ & _ & Hinfo & Hlog & _).
  split; [vm_compute; reflexivity|]. split.
  - apply Hlog. vm_compute. reflexivity.
  - apply Hinfo. split; vm_compute; discriminate.
Defined.

(** The banners do not read "Potentially Undervalued" and "Potentially
    Overvalued": on a P/E of 14.99 and of 25.01, and in the run on the
    sample snapshot without a trailing P/E, the page shows the longer
    texts. *)
Lemma C2_counterexample :
  (below (float_lit 14.99) 15
   ∧ banner (valuation_indicator (float_lit 14.99)) ≠ st_success "Potentially Undervalued")
  ∧ (above (float_lit 25.01) 25
     ∧ banner (valuation_indicator (float_lit 25.01)) ≠ st_warning "Potentially Overvalued")
  ∧ banners (snd (run (main (steady no_pe_info sample_frame) "INFY.NS" false)))
    = [ st_success "Low P/E - Potentially Undervalued";
        st_info "Moderate Dividend";
        st_success "Strong Growth Potential" ].
Proof.
  split; [|split].
  - split; [vm_compute; reflexivity|]. vm_compute. discriminate.
  - split; [vm_compute; reflexivity|]. vm_compute. discriminate.
  - vm_compute. reflexivity.
Qed.

(** C3.  The Dividend Health banner for the yield [d] read from the percent
    tile is [st.success] with "High Dividend Yield" exactly when [d > 3],
    [st.info] with "Moderate Dividend" exactly when [1 < d <= 3] and
    [st.warning] with "Low Dividend Yield" exactly when [d <= 1]; it is
    written under the Dividend Health heading, after the Valuation column.
    The tiles "3.01%", "3.00%" and "1.00%" give the success, the info and
    the warning. *)
Theorem C3_dividend_thresholds (d : number) :
  (banner (dividend_health d) = st_success "High Dividend Yield" ↔ above d 3)
  ∧ (banner (dividend_health d) = st_info "Moderate Dividend" ↔ above d 1 ∧ at_most d 3)
  ∧ (banner (dividend_health d) = st_warning "Low Dividend Yield" ↔ at_most d 1)
  ∧ (∀ m log pe,
       tile m "Valuation" "P/E Ratio" = inr (VNum pe) →
       percent_tile m "Dividend" "Dividend Yield" = inr d →
       ∃ rest, snd (quick_insights m log)
               = log ++ valuation_entries pe ++ dividend_entries d ++ rest)
  ∧ map (λ s, (λ x, banner (dividend_health x)) <$> parsed_percent s)
        ["3.01%"; "3.00%"; "1.00%"]
    = [ inr (st_success "High Dividend Yield");
        inr (st_info "Moderate Dividend");
        inr (st_warning "Low Dividend Yield") ].
Proof.
  split; [|split; [|split; [|split]]].
  - destruct (dividend_cases d) as [[H ->]|[[H ->]|[H ->]]]; by_range d.
  - destruct (dividend_cases d) as [[H ->]|[[H ->]|[H ->]]]; by_range d.
  - destruct (dividend_cases d) as [[H ->]|[[H ->]|[H ->]]]; by_range d.
  - intros m log pe Htile Hd. rewrite quick_insights_steps, Htile, Hd.
    change (inr (VNum pe) ≫= py_number "<") with (inr (B := number) (A := exn) pe).
    destruct (percent_tile m "Growth" "Revenue Growth") as [e|g];
      eexists; cbn [snd]; reflexivity.
  - vm_compute. reflexivity.
Qed.

Lemma C3_witness :
  key_metrics sample_info = inr sample_metrics
  ∧ (∃ rest, snd (quick_insights sample_metrics [])
             = [] ++ valuation_entries (round2 (float_lit 24.567))
                  ++ dividend_entries (Float 3) ++ rest)
  ∧ banner (dividend_health (Float 3)) = st_info "Moderate Dividend".
Proof.
  pose proof (C3_dividend_thresholds (Float 3)) as (_ & Hinfo & _ & Hlog & _).
  split; [vm_compute; reflexivity|]. split.
  - apply Hlog; vm_compute; reflexivity.
  - apply Hinfo. split; vm_compute; first [reflexivity | discriminate].
Defined.

(** C4.  The Growth Potential banner for the revenue growth [g] read from
    the percent tile is [st.success] with "Strong Growth Potential" exactly
    when [g > 10], [st.info] with "Moderate Growth" exactly when
    [5 < g <= 10] and [st.warning] with "Limited Growth" exactly when
    [g <= 5]; it is the last entry of "Quick Insights", under the Growth
    Potential heading.  The tiles "10.01%", "10.00%" and "5.00%" give the
    success, the info and the warning. *)
Theorem C4_growth_thresholds (g : number) :
  (banner (growth_potential g) = st_success "Strong Growth Potential" ↔ above g 10)
  ∧ (banner (growth_potential g) = st_info "Moderate Growth" ↔ above g 5 ∧ at_most g 10)
  ∧ (banner (growth_potential g) = st_warning "Limited Growth" ↔ at_most g 5)
  ∧ (∀ m log pe d,
       tile m "Valuation" "P/E Ratio" = inr (VNum pe) →
       percent_tile m "Dividend" "Dividend Yield" = inr d →
       percent_tile m "Growth" "Revenue Growth" = inr g →
       quick_insights m log
       = (inr (), log ++ valuation_entries pe ++ dividend_entries d ++ growth_entries g))
  ∧ map (λ s, (λ x, banner (growth_potential x)) <$> parsed_percent s)
        ["10.01%"; "10.00%"; "5.00%"]
    = [ inr (st_success "Strong Growth Potential");
        inr (st_info "Moderate Growth");
        inr (st_warning "Limited Growth") ].
Proof.
  split; [|split; [|split; [|split]]].
  - destruct (growth_cases g) as [[H ->]|[[H ->]|[H ->]]]; by_range g.
  - destruct (growth_cases g) as [[H ->]|[[H ->]|[H ->]]]; by_range g.
  - destruct (growth_cases g) as [[H ->]|[[H ->]|[H ->]]]; by_range g.
  - intros m log pe d Htile Hd Hg. rewrite quick_insights_steps, Htile, Hd, Hg.
    reflexivity.
  - vm_compute. reflexivity.
Qed.

Lemma C4_witness :
  key_metrics sample_info = inr sample_metrics
  ∧ quick_insights sample_metrics []
    = (inr (), [] ++ valuation_entries (round2 (float_lit 24.567))
                  ++ dividend_entries (Float 3) ++ growth_entries (float_lit 10.01))
  ∧ banner (growth_potential (float_lit 10.01)) = st_success "Strong Growth Potential".
Proof.
  pose proof (C4_growth_thresholds (float_lit 10.01)) as (Hsuccess & _ & _ & Hlog & _).
  split; [vm_compute; reflexivity|]. split.
  - apply Hlog; vm_compute; reflexivity.
  - apply Hsuccess. vm_compute. reflexivity.
Defined.

(** C5.  When the provider call inside [get_key_metrics] raises [e], the
    method returns [None], reports "Error fetching stock data: " followed by
    the text of [e], and has made that one call and no other; [main] then
    shows the fixed part of the page and that single error, nothing else.
    Whatever the provider does, [get_key_metrics] never raises and returns
    either [None] or all four groups with all their tiles. *)
Theorem C5_fetch_failure_is_total P ticker log e :
  info_of P (length (fetches log)) ticker = inl e →
  get_key_metrics P ticker log
  = (inr None,
     log ++ [ Fetch_info ticker;
              Page (st_error ("Error fetching stock data: " +:+ exn_text e)) ])
  ∧ (∀ analyze_button, truthy ticker || analyze_button = true →
     main P ticker analyze_button log
     = (inr (),
        log ++ preamble
          ++ [ Fetch_info ticker;
               Page (st_error ("Error fetching stock data: " +:+ exn_text e)) ]))
  ∧ ∀ P' ticker' log',
      match fst (get_key_metrics P' ticker' log') with
      | inr (Some m) => layout m = documented_layout
      | inr None => True
      | inl _ => False
      end.
Proof.
  intros Hraise. split; [|split].
  - rewrite get_key_metrics_run, Hraise. reflexivity.
  - intros analyze_button Hgo. rewrite main_run, Hgo. unfold analyze, mbind at 1, M_bind.
    assert (fetches (log ++ preamble) = fetches log) as Hquiet
      by (rewrite fetches_app; apply app_nil_r).
    rewrite get_key_metrics_run, Hquiet, Hraise. simpl.
    by rewrite <- !app_assoc.
  - intros P' ticker' log'. rewrite get_key_metrics_run.
    destruct (info_of P' _ ticker') as [e'|info]; simpl; [done|].
    destruct (key_metrics info) as [e'|m] eqn:Hm; simpl; [done|].
    apply key_metrics_tiles in Hm. by destruct Hm.
Qed.

Lemma C5_witness :
  get_key_metrics unreachable "" []
  = (inr None,
     [ Fetch_info "";
       Page (st_error "Error fetching stock data: provider unreachable") ])
  ∧ errors (snd (run (main unreachable "" true)))
    = ["Error fetching stock data: provider unreachable"]
  ∧ tiles_shown (snd (run (main unreachable "" true))) = []
  ∧ charts (snd (run (main unreachable "" true))) = [].
Proof.
  pose proof (C5_fetch_failure_is_total unreachable "" []
                (Exn "ConnectionError" "provider unreachable") eq_refl)
    as (Hmethod & Hmain & _).
  split; [exact Hmethod|].
  unfold run. rewrite (Hmain true eq_refl). repeat split.
Defined.

(** C6 (amended).  A successful [get_key_metrics] returns exactly four
    categories, Valuation, Dividend, Performance and Growth in that order,
    with 5, 3, 3 and 3 tiles under their documented labels in the documented
    order: fourteen tiles in all, not sixteen. *)
Theorem C6_grouping P ticker log m :
  fst (get_key_metrics P ticker log) = inr (Some m) →
  layout m = documented_layout
  ∧ map (λ g, length (snd g)) m = [5; 3; 3; 3]%nat
  ∧ field_count m = 14%nat.
Proof.
  rewrite get_key_metrics_run.
  destruct (info_of P _ ticker) as [e|info]; simpl; [done|].
  destruct (key_metrics info) as [e|m'] eqn:Hm; simpl; [done|].
  intros [= <-]. apply key_metrics_tiles in Hm. by destruct Hm.
Qed.

Lemma C6_witness :
  ∃ m, fst (run (get_key_metrics (steady sample_info sample_frame) "INFY.NS")) = inr (Some m)
       ∧ layout m = documented_layout
       ∧ map (λ g, length (snd g)) m = [5; 3; 3; 3]%nat
       ∧ field_count m = 14%nat.
Proof.
  eexists. split; [vm_compute; reflexivity|].
  apply (C6_grouping (steady sample_info sample_frame) "INFY.NS" []).
  vm_compute. reflexivity.
Defined.

(** The claim of sixteen fields fails on the sample snapshot. *)
Lemma C6_counterexample :
  ∃ m, fst (run (get_key_metrics (steady sample_info sample_frame) "INFY.NS")) = inr (Some m)
       ∧ field_count m ≠ 16%nat.
Proof. eexists. split; [vm_compute; reflexivity|]. vm_compute. discriminate. Qed.

(** C7 (amended).  [plot_price_history] signals a failure exactly when the
    download raises or the table it returns has no "Close" column, and then
    reports "Error creating stock chart: " with the error text.  A table
    that has the column yields the figure of its rows, also when it has no
    row at all. *)
Theorem C7_chart_failure P ticker period log :
  let answer := history_of P (length (fetches log)) ticker period in
  (fst (plot_price_history P ticker period log) = inr None
   ↔ (∃ e, answer = inl e) ∨ (∃ df, answer = inr df ∧ df_columns df !! "Close" = None))
  ∧ (fst (plot_price_history P ticker period log) = inr None →
     ∃ e, snd (plot_price_history P ticker period log)
          = log ++ [ Fetch_history ticker period;
                     Page (st_error ("Error creating stock chart: " +:+ exn_text e)) ])
  ∧ (∀ df close, answer = inr df → df_columns df !! "Close" = Some close →
     plot_price_history P ticker period log
     = (inr (Some (price_figure ticker df close)),
        log ++ [Fetch_history ticker period])).
Proof.
  intros answer. rewrite plot_price_history_run. fold answer.
  unfold df_subscript. destruct answer as [e|df]; simpl.
  - split; [|split]; [| |done].
    + split; [intros _; left; by exists e|done].
    + intros _. by exists e.
  - destruct (df_columns df !! "Close") as [close|] eqn:Hclose; simpl.
    + split; [|split]; [| done |].
      * split; [done|]. intros [[e [=]]|[df' [[= <-] H]]]. by rewrite Hclose in H.
      * intros df' close' [= <-] H. rewrite Hclose in H. by injection H as <-.
    + split; [|split]; [| |].
      * split; [|done]. intros _. right. by exists df.
      * intros _. by exists (Exn "KeyError" "'Close'").
      * intros df' close' [= <-] H. by rewrite Hclose in H.
Qed.

Lemma C7_witness :
  fst (run (plot_price_history (steady sample_info malformed_frame) "INFY.NS" "1y"))
  = inr None
  ∧ run (plot_price_history (steady sample_info empty_frame) "INFY.NS" "1y")
    = (inr (Some (price_figure "INFY.NS" empty_frame [])), [Fetch_history "INFY.NS" "1y"]).
Proof.
  split.
  - apply (proj1 (C7_chart_failure (steady sample_info malformed_frame) "INFY.NS" "1y" [])).
    right. exists malformed_frame. split; [reflexivity|vm_compute; reflexivity].
  - apply (proj2 (proj2 (C7_chart_failure (steady sample_info empty_frame) "INFY.NS" "1y" [])));
      [reflexivity|vm_compute; reflexivity].
Defined.

(** An empty price table is not a failure: the figure has no point, no
    error is reported, and [main] draws it. *)
Lemma C7_counterexample :
  ∃ fig,
    fst (run (plot_price_history (steady sample_info empty_frame) "INFY.NS" "1y"))
    = inr (Some fig)
    ∧ fig_x fig = [] ∧ fig_y fig = []
    ∧ charts (snd (run (main (steady sample_info empty_frame) "INFY.NS" false))) = [fig]
    ∧ errors (snd (run (main (steady sample_info empty_frame) "INFY.NS" false))) = [].
Proof. eexists. repeat apply conj; vm_compute; reflexivity. Qed.

(** C8 (amended).  One run of [main] makes at most three provider calls,
    one after the other and in this order: the snapshot fetch of
    [get_key_metrics], a second snapshot fetch for the company name, and the
    price-history fetch.  A run stops short of the plan when there is
    nothing to analyse or a fetch fails. *)
Theorem C8_provider_calls_of_a_run P ticker analyze_button :
  ∃ k, (k <= 3)%nat
       ∧ fetches (snd (run (main P ticker analyze_button))) = take k (fetch_plan ticker).
Proof.
  unfold run. rewrite main_run.
  destruct (truthy ticker || analyze_button).
  - destruct (analyze_fetches P ticker ([] ++ preamble)) as (k & Hk & ->).
    exists k. split; [lia|done].
  - exists 0%nat. split; [lia|reflexivity].
Qed.

(** The claim of at most two calls fails on the sample provider: the run
    fetches the snapshot twice and then the history. *)
Lemma C8_counterexample :
  fetches (snd (run (main (steady sample_info sample_frame) "INFY.NS" false)))
  = [Fetch_info "INFY.NS"; Fetch_info "INFY.NS"; Fetch_history "INFY.NS" "1y"]
  ∧ ¬ (length (fetches (snd (run (main (steady sample_info sample_frame) "INFY.NS" false))))
       <= 2)%nat.
Proof. split; [vm_compute; reflexivity|]. vm_compute. lia. Qed.

(** C9.  When the snapshot has no trailing P/E, the P/E tile holds the
    default 0 and the Valuation banner is the Success
    "Low P/E - Potentially Undervalued": so whenever the metrics are built
    and shown, whatever else the snapshot holds.  The banner appears in the
    log of the analysis right under its heading. *)
Theorem C9_missing_pe_reads_as_undervalued info m :
  info !! "trailingPE" = None →
  key_metrics info = inr m →
  tile m "Valuation" "P/E Ratio" = inr (VNum (Int 0))
  ∧ banner (valuation_indicator (Int 0)) = st_success "Low P/E - Potentially Undervalued"
  ∧ (∀ log, ∃ dy rg, quick_insights m log = (inr (), log ++ insights (Int 0) dy rg))
  ∧ (∀ P ticker log info',
       info_of P (length (fetches log)) ticker = inr info →
       info_of P (S (length (fetches log))) ticker = inr info' →
       ∃ before after,
         snd (analyze P ticker log)
         = before ++ [ Page (st_write "🔍 **Valuation Indicator**");
                       Page (st_success "Low P/E - Potentially Undervalued") ] ++ after).
Proof.
  intros Habsent Hm.
  assert (dict_get info "trailingPE" (VNum (Int 0)) = VNum (Int 0)) as Hzero
    by (unfold dict_get; by rewrite Habsent).
  pose proof (proj1 (key_metrics_tiles info m) Hm) as Htiles.
  split; [|split; [done|split]].
  - destruct (quick_insights_run info m [] Htiles) as (pe & _ & _ & Hpe & _ & _ & -> & _).
    rewrite Hzero in Hpe. by injection Hpe as <-.
  - intros log.
    destruct (quick_insights_run info m log Htiles)
      as (pe & dy & rg & Hpe & _ & _ & _ & _ & _ & ->).
    rewrite Hzero in Hpe. injection Hpe as <-. eauto.
  - intros P ticker log info' Hinfo Hinfo'.
    destruct (analyze_run P ticker log info info' m Hinfo Hm Hinfo')
      as (pe & dy & rg & Hpe & _ & _ & Hrun).
    rewrite Hzero in Hpe. injection Hpe as <-. rewrite Hrun.
    exists (log ++ [ Fetch_info ticker; Fetch_info ticker;
                     Page (st_header
                             ("📊 " +:+ py_str (dict_get info' "longName" (VStr ticker)))) ]
                ++ tab_entries m
                ++ [Page (st_header "Stock Price History")]
                ++ chart_entries ticker "1y"
                     (history_of P (S (S (length (fetches log)))) ticker "1y")
                ++ [Page (st_header "Quick Insights"); Page (st_columns [1; 1; 1])]),
           [ Page (st_write "💰 **Dividend Health**");
             Page (banner (dividend_health (tile_reading (mul100 dy))));
             Page (st_write "📈 **Growth Potential**");
             Page (banner (growth_potential (tile_reading (mul100 rg)))) ].
    cbn [snd]. rewrite <- !app_assoc. reflexivity.
Qed.

Lemma C9_witness :
  ∃ m, key_metrics no_pe_info = inr m
       ∧ tile m "Valuation" "P/E Ratio" = inr (VNum (Int 0))
       ∧ ∃ before after,
           snd (run (analyze (steady no_pe_info sample_frame) "INFY.NS"))
           = before ++ [ Page (st_write "🔍 **Valuation Indicator**");
                         Page (st_success "Low P/E - Potentially Undervalued") ] ++ after.
Proof.
  eexists. split; [vm_compute; reflexivity|].
  match goal with
  | |- tile ?m _ _ = _ ∧ _ =>
      assert (key_metrics no_pe_info = inr m) as Hm by (vm_compute; reflexivity)
  end.
  pose proof (C9_missing_pe_reads_as_undervalued no_pe_info _ eq_refl Hm)
    as (Htile & _ & _ & Hrun).
  split; [exact Htile|].
  exact (Hrun (steady no_pe_info sample_frame) "INFY.NS" [] no_pe_info eq_refl eq_refl).
Defined.

(** C10.  The Dividend Health and Growth Potential banners do not see the
    raw fraction [v] of the snapshot but [round(v * 100, 2)]: the percentage
    is printed with two decimals into the tile and read back from it.  A raw
    yield of 0.030001 is therefore judged as 3.00, "Moderate Dividend",
    where the unrounded 3.0001 would be "High Dividend Yield". *)
Theorem C10_banners_read_rounded_percentages info m q :
  key_metrics info = inr m →
  (info !! "dividendYield" = Some (VNum (Float q)) →
   percent_tile m "Dividend" "Dividend Yield" = inr (round2 (mul100 (Float q))))
  ∧ (info !! "revenueGrowth" = Some (VNum (Float q)) →
     percent_tile m "Growth" "Revenue Growth" = inr (round2 (mul100 (Float q))))
  ∧ dividend_health (round2 (mul100 (float_lit 0.030001)))
    = Verdict Info "Moderate Dividend"
  ∧ dividend_health (mul100 (float_lit 0.030001))
    = Verdict Success "High Dividend Yield".
Proof.
  intros Hm. apply key_metrics_tiles in Hm.
  destruct (quick_insights_run info m [] Hm)
    as (pe & dy & rg & _ & Hdy & Hrg & _ & Hd & Hg & _).
  unfold dict_get in Hdy, Hrg.
  split; [|split; [|split; vm_compute; reflexivity]].
  - intros Hq. rewrite Hq in Hdy. simpl in Hdy. injection Hdy as <-.
    by rewrite <- tile_reading_product.
  - intros Hq. rewrite Hq in Hrg. simpl in Hrg. injection Hrg as <-.
    by rewrite <- tile_reading_product.
Qed.

Lemma C10_witness :
  ∃ m, key_metrics sample_info = inr m
       ∧ percent_tile m "Dividend" "Dividend Yield"
         = inr (round2 (mul100 (float_lit 0.030001)))
       ∧ round2 (mul100 (float_lit 0.030001)) = Float 3.
Proof.
  eexists. split; [vm_compute; reflexivity|]. split; [|vm_compute; reflexivity].
  refine (proj1 (C10_banners_read_rounded_percentages sample_info _
                   (rnd64 0.030001) _) _).
  - vm_compute. reflexivity.
  - vm_compute. reflexivity.
Defined.

(** * Further properties of the program *)

Section Snapshot_fields.

Lemma printable_text n : printable n = true ↔ ∃ s, number_fixed2 n = Some s.
Proof.
  destruct n as [z|q|negative]; cbn [printable number_fixed2].
  - destruct (float_of_int z) as [x|]; cbn.
    + split; [eauto|done].
    + split; [done|]. by intros [s ?].
  - split; [eauto|done].
  - split; [eauto|done].
Qed.

Lemma printable_price_get info k :
  printable_price (info !! k) = true
  ↔ ∃ n s, dict_get info k (VStr "N/A") = VNum n ∧ number_fixed2 n = Some s.
Proof.
  unfold printable_price, dict_get. destruct (info !! k) as [[n| |]|]; cbn [default].
  - rewrite printable_text. split.
    + intros [s Hs]. eauto.
    + intros (n' & t & Hn & Ht). injection Hn as <-. eauto.
  - split; [done|]. by intros (? & ? & [=] & _).
  - split; [done|]. by intros (? & ? & [=] & _).
  - split; [done|]. by intros (? & ? & [=] & _).
Qed.

Lemma printable_fraction_get info k :
  printable_fraction (info !! k) = true
  ↔ ∃ n s, dict_get info k (VNum (Int 0)) = VNum n ∧ number_fixed2 (mul100 n) = Some s.
Proof.
  unfold printable_fraction, dict_get. destruct (info !! k) as [[n| |]|]; cbn [default].
  - rewrite printable_text. split.
    + intros [s Hs]. eauto.
    + intros (n' & t & Hn & Ht). injection Hn as <-. eauto.
  - split; [done|]. by intros (? & ? & [=] & _).
  - split; [done|]. by intros (? & ? & [=] & _).
  - split; [|done]. intros _. exists (Int 0), "0.00". split; [done|]. vm_compute. reflexivity.
Qed.

Lemma numeric_iff info k :
  numeric (info !! k) = true ↔ ∃ n, dict_get info k (VStr "N/A") = VNum n.
Proof.
  unfold dict_get. destruct (info !! k) as [[n| |]|]; cbn;
    (split; [first [done | eauto] | first [done | by intros [? ?]]]).
Qed.

Lemma numeric_or_absent_iff info k :
  numeric_or_absent (info !! k) = true ↔ ∃ n, dict_get info k (VNum (Int 0)) = VNum n.
Proof.
  unfold dict_get. destruct (info !! k) as [[n| |]|]; cbn;
    (split; [first [done | eauto] | first [done | by intros [? ?]]]).
Qed.

End Snapshot_fields.

(** X1.  [get_key_metrics] returns the metrics exactly when the provider
    answers with a snapshot that is well formed: the four price fields hold
    numbers that [:.2f] can print (any float, or an [int] within the range
    of binary64), the market cap holds a number, each of the five ratio and
    EPS fields holds a number or is absent, and each of the four fraction
    fields is absent or holds a number whose hundredfold [:.2f] can print.
    A text or a [None] in any of the fourteen fields, a missing price or
    market cap, or an [int] too large for a float makes the result [None]:
    the sample snapshot is well formed, and it is not with a price of
    [10^400] or a yield of [10^400]. *)
Theorem X1_metrics_need_a_well_formed_snapshot P ticker log :
  ((∃ m, fst (get_key_metrics P ticker log) = inr (Some m))
   ↔ ∃ info, info_of P (length (fetches log)) ticker = inr info ∧ well_formed info = true)
  ∧ well_formed sample_info = true
  ∧ well_formed (<["currentPrice" := VNum (Int (10 ^ 400))]> sample_info) = false
  ∧ well_formed (<["dividendYield" := VNum (Int (10 ^ 400))]> sample_info) = false
  ∧ fst (run (get_key_metrics
                (steady (<["currentPrice" := VNum (Int (10 ^ 400))]> sample_info) sample_frame)
                "INFY.NS"))
    = inr None.
Proof.
  split; [|repeat split; vm_compute; reflexivity].
  rewrite get_key_metrics_run.
  destruct (info_of P _ ticker) as [e|info]; simpl.
  { split; [by intros [m [=]]|by intros (info & [=] & _)]. }
  assert (well_formed info = true ↔ ∃ m, tiles_of info m) as Hwf.
  { unfold well_formed. cbn [forallb]. rewrite !andb_true_iff.
    rewrite !printable_price_get, !printable_fraction_get, numeric_iff, !numeric_or_absent_iff.
    split.
    - intros H. destruct_and!.
      repeat match goal with H : ∃ _, _ |- _ => destruct H end. destruct_and!.
      eexists. by econstructor.
    - intros [m []]. repeat split; eauto. }
  split.
  - intros [m Hm]. exists info. split; [done|]. apply Hwf.
    destruct (key_metrics info) as [e|m'] eqn:Hk; [done|].
    exists m'. by apply key_metrics_tiles.
  - intros (info' & [= <-] & [m Hm]%Hwf). apply key_metrics_tiles in Hm.
    exists m. by rewrite Hm.
Qed.

(** X2.  When the metrics are built and a field whose default is 0 is
    absent from the snapshot, its tile shows the default: the number 0 for a
    ratio or an EPS, the text "0.00%" for a percentage. *)
Lemma zero_percent : number_fixed2 (mul100 (Int 0)) = Some "0.00".
Proof. vm_compute. reflexivity. Qed.

Theorem X2_absent_field_shows_its_default info m k group label shown :
  key_metrics info = inr m →
  info !! k = None →
  (k, (group, label, shown)) ∈ zero_default_tiles →
  tile m group label = inr shown.
Proof.
  intros Hm Habsent Hin. apply key_metrics_tiles in Hm.
  destruct Hm as [cp mc pe pb fpe dy dr pr hi lo ch te fe rg
                    price yield rate payout high low change growth
                    _ _ Hpe Hpb Hfpe Hdy _ Hpr _ _ Hch Hte Hfe Hrg
                    _ Hyield _ Hpayout _ _ Hchange Hgrowth].
  unfold dict_get, zero_default_tiles in *.
  repeat (apply elem_of_cons in Hin as [Heq|Hin];
          [injection Heq as -> -> -> ->; rewrite Habsent in *; cbn [default] in *;
           simplify_eq; rewrite ?zero_percent in *; simplify_eq; reflexivity|]).
  by apply elem_of_nil in Hin.
Qed.

Lemma X2_witness :
  ∃ m, key_metrics (delete "revenueGrowth" sample_info) = inr m
       ∧ tile m "Growth" "Revenue Growth" = inr (VStr "0.00%").
Proof.
  eexists. split; [vm_compute; reflexivity|].
  refine (X2_absent_field_shows_its_default
            (delete "revenueGrowth" sample_info) _ "revenueGrowth" _ _ _ _ _ _).
  - vm_compute. reflexivity.
  - vm_compute. reflexivity.
  - unfold zero_default_tiles. repeat first [apply list_elem_of_here | apply list_elem_of_further].
Defined.

Section Two_places.

Lemma round_half_even_error a d :
  2 * Z.abs (round_half_even a d * Z.pos d - a) <= Z.pos d.
Proof.
  unfold round_half_even.
  pose proof (Z.div_mod a (Z.pos d) ltac:(lia)) as Ha.
  pose proof (Z.mod_pos_bound a (Z.pos d) ltac:(lia)) as Hr.
  destruct (Z.compare_spec (2 * (a mod Z.pos d)) (Z.pos d)) as [He|Hl|Hg];
    [destruct (Z.even _)| |]; nia.
Qed.

(** What [:.2f] prints is within half a hundredth of the value. *)
Lemma hundredths_close q : (Qabs ((hundredths q # 100) - q) <= 1 # 200)%Q.
Proof.
  unfold hundredths. pose proof (round_half_even_error (Qnum q * 100) (Qden q)) as H.
  destruct q as [n d]. simpl in *.
  unfold Qle, Qminus, Qplus, Qopp. simpl. rewrite Pos2Z.inj_mul. lia.
Qed.

Lemma is_unsigned_fixed2_body h :
  0 <= h →
  is_unsigned_fixed2
    (digits (Z.to_N (h / 100)) +:+ "."
       +:+ String (digit (h mod 100 / 10)) (String (digit (h mod 10)) ""))
  = true.
Proof.
  intros Hh. unfold is_unsigned_fixed2.
  change ("." +:+ ?t) with (String "." t).
  rewrite split_point_digits by apply digits_are_digits.
  rewrite digits_are_digits.
  pose proof (digits_nonempty (Z.to_N (h / 100))) as Hne.
  destruct (digits (Z.to_N (h / 100))) as [|a s]; [done|]. simpl.
  rewrite !digit_is_digit; [done| |].
  - apply Z.mod_pos_bound; lia.
  - assert (0 <= h mod 100 < 100) by (apply Z.mod_pos_bound; lia).
    split; [apply Z.div_pos; lia | apply Z.div_lt_upper_bound; lia].
Qed.

Lemma is_fixed2_fixed2 q : is_fixed2 (fixed2 q) = true.
Proof.
  unfold fixed2.
  pose proof (is_unsigned_fixed2_body (Z.abs (hundredths q)) ltac:(lia)) as Hbody.
  destruct (Qnum q <? 0); simpl sign_prefix.
  - change ("-" +:+ ?t) with (String "-" t). exact Hbody.
  - change ("" +:+ ?t) with t.
    pose proof (digits_nonempty (Z.to_N (Z.abs (hundredths q) / 100))) as Hne.
    pose proof (digits_are_digits (Z.to_N (Z.abs (hundredths q) / 100))) as Hd.
    destruct (digits _) as [|a s]; [done|].
    simpl in Hd. apply andb_true_iff in Hd as [Ha _].
    change (String a s +:+ ?t) with (String a (s +:+ t)) in *.
    unfold is_fixed2.
    destruct (Ascii.eqb_spec a "-") as [->|_]; [discriminate Ha|]. exact Hbody.
Qed.

Lemma round_half_even_exact t d : round_half_even (t * Z.pos d) d = t.
Proof.
  unfold round_half_even. rewrite Z.div_mul, Z.mod_mul by lia. simpl. reflexivity.
Qed.

Lemma binade_int z : z ≠ 0 → binade (inject_Z z) = Z.log2 (Z.abs z).
Proof.
  intros Hz. unfold binade, inject_Z. cbn [Qnum Qden].
  change (Z.log2 1) with 0. rewrite Z.sub_0_r.
  pose proof (Z.log2_nonneg (Z.abs z)).
  pose proof (Z.log2_spec (Z.abs z) ltac:(lia)) as [Hlo _].
  destruct (Z.leb_spec 0 (Z.log2 (Z.abs z))); [|lia].
  destruct (Z.leb_spec (1 * 2 ^ Z.log2 (Z.abs z)) (Z.abs z)); lia.
Qed.

Lemma Qred_int z : Qred (inject_Z z) = inject_Z z.
Proof.
  unfold Qred, inject_Z.
  pose proof (Z.ggcd_gcd z 1) as Hg. pose proof (Z.ggcd_correct_divisors z 1) as Hd.
  destruct (Z.ggcd z 1) as [g [a b]]. cbn [fst snd] in *.
  rewrite Z.gcd_1_r in Hg. subst g. destruct Hd as [Ha Hb].
  replace a with z by lia. replace b with 1 by lia. reflexivity.
Qed.

(** An [int] below [2^53] in magnitude is a float. *)
Lemma rnd64_small_int z : Z.abs z < 2 ^ 53 → rnd64 (inject_Z z) = inject_Z z.
Proof.
  intros Hz. unfold rnd64. change (Qnum (inject_Z z)) with z.
  change (Qden (inject_Z z)) with 1%positive.
  destruct (Z.eqb_spec z 0) as [->|Hz0]; [reflexivity|].
  rewrite binade_int by done.
  assert (Z.log2 (Z.abs z) < 53) as Hlog by (apply Z.log2_lt_pow2; lia).
  pose proof (Z.log2_nonneg (Z.abs z)).
  set (e := Z.max (Z.log2 (Z.abs z) - 52) (-1074)).
  destruct (Z.leb_spec 0 e) as [He|He].
  - assert (e = 0) as -> by lia. change (2 ^ 0) with 1. change (Z.to_pos 1) with 1%positive.
    rewrite Pos.mul_1_r, Z.mul_1_r.
    replace z with (z * Z.pos 1) at 1 by lia. by rewrite round_half_even_exact.
  - assert (0 < 2 ^ (- e)) as Hpe by (apply Z.pow_pos_nonneg; lia).
    replace (z * 2 ^ (- e)) with (z * 2 ^ (- e) * Z.pos 1) by lia.
    rewrite round_half_even_exact.
    rewrite <- (Qred_int z). apply Qred_complete. unfold Qeq, inject_Z. cbn [Qnum Qden].
    rewrite Z2Pos.id by done. lia.
Qed.

Lemma hundredths_int z : hundredths (inject_Z z) = z * 100.
Proof.
  unfold hundredths, inject_Z. cbn [Qnum Qden].
  replace (z * 100) with (z * 100 * Z.pos 1) at 1 by lia. apply round_half_even_exact.
Qed.

Lemma number_fixed2_shows n s : number_fixed2 n = Some s → shows n s.
Proof.
  destruct n as [z|q|negative]; cbn [number_fixed2 shows].
  - destruct (float_of_int z) as [x|] eqn:Hx; [|done]. intros [= <-].
    exists (hundredths x # 100), x.
    split; [apply is_fixed2_fixed2|]. split; [apply read_decimal_fixed2|].
    split; [done|]. split; [apply hundredths_close|].
    intros Hz. unfold float_of_int in Hx. rewrite rnd64_small_int in Hx by done.
    destruct (overflows _); [done|]. injection Hx as <-.
    rewrite hundredths_int. unfold Qeq, inject_Z. cbn [Qnum Qden]. lia.
  - intros [= <-]. exists (hundredths q # 100).
    split; [apply is_fixed2_fixed2|]. split; [apply read_decimal_fixed2|].
    apply hundredths_close.
  - by intros [= <-].
Qed.

End Two_places.

(** X3.  A price tile (Current Price, Dividend Rate, 52-Week High and Low)
    is the currency sign followed by what [:.2f] prints for the number in
    the snapshot.  For a finite float price that is a text with exactly two
    decimals which reads back as a decimal within half a hundredth of the
    price.  An [int] price is converted to the nearest float first: below
    [2^53] in magnitude the text reads back as the price itself, beyond that
    within half a hundredth of the nearest float.  An infinite price shows
    as [inf] or [-inf]. *)
Theorem X3_price_tiles_show_the_price info m k group label n :
  key_metrics info = inr m →
  (k, (group, label)) ∈ price_tiles →
  info !! k = Some (VNum n) →
  ∃ s, tile m group label = inr (VStr ("₹" +:+ s)) ∧ shows n s.
Proof.
  intros Hm Hin Hk. apply key_metrics_tiles in Hm.
  destruct Hm as [cp mc pe pb fpe dy dr pr hi lo ch te fe rg
                    price yield rate payout high low change growth
                    Hcp _ _ _ _ _ Hdr _ Hhi Hlo _ _ _ _
                    Hprice _ Hrate _ Hhigh Hlow _ _].
  unfold dict_get, price_tiles in *.
  repeat (apply elem_of_cons in Hin as [Heq|Hin];
          [injection Heq as -> -> ->; rewrite Hk in *; cbn [from_option id] in *;
           simplify_eq;
           eexists; split; [reflexivity|]; by apply number_fixed2_shows|]).
  by apply elem_of_nil in Hin.
Qed.

Lemma X3_witness :
  key_metrics sample_info = inr sample_metrics
  ∧ (∃ s, tile sample_metrics "Performance" "52-Week High" = inr (VStr ("₹" +:+ s))
          ∧ shows (float_lit 1700.05) s)
  ∧ tile sample_metrics "Performance" "52-Week High" = inr (VStr "₹1700.05")
  ∧ tile sample_metrics "Dividend" "Dividend Rate" = inr (VStr "₹34.00").
Proof.
  split; [vm_compute; reflexivity|]. split; [|split; vm_compute; reflexivity].
  apply (X3_price_tiles_show_the_price sample_info sample_metrics "fiftyTwoWeekHigh").
  - vm_compute. reflexivity.
  - unfold price_tiles. repeat first [apply list_elem_of_here | apply list_elem_of_further].
  - vm_compute. reflexivity.
Defined.

(** X4.  A percentage tile (Dividend Yield, Payout Ratio, 1Y Return,
    Revenue Growth) is what [:.2f] prints for the product of the fraction in
    the snapshot and 100, followed by a percent sign.  The product is the
    one Python computes: exact for an [int], the nearest float for a float,
    an infinity when the float product is beyond the range.  For a finite
    product the text has exactly two decimals and reads back as a decimal
    within half a hundredth of the product; an infinite product shows as
    [inf%] or [-inf%]. *)
Theorem X4_percent_tiles_show_the_percentage info m k group label n :
  key_metrics info = inr m →
  (k, (group, label)) ∈ percent_tiles →
  info !! k = Some (VNum n) →
  ∃ s, tile m group label = inr (VStr (s +:+ "%")) ∧ shows (mul100 n) s.
Proof.
  intros Hm Hin Hk. apply key_metrics_tiles in Hm.
  destruct Hm as [cp mc pe pb fpe dy dr pr hi lo ch te fe rg
                    price yield rate payout high low change growth
                    _ _ _ _ _ Hdy _ Hpr _ _ Hch _ _ Hrg
                    _ Hyield _ Hpayout _ _ Hchange Hgrowth].
  unfold dict_get, percent_tiles in *.
  repeat (apply elem_of_cons in Hin as [Heq|Hin];
          [injection Heq as -> -> ->; rewrite Hk in *; cbn [from_option id] in *;
           simplify_eq;
           eexists; split; [reflexivity|]; by apply number_fixed2_shows|]).
  by apply elem_of_nil in Hin.
Qed.

Lemma X4_witness :
  key_metrics sample_info = inr sample_metrics
  ∧ (∃ s, tile sample_metrics "Performance" "1Y Return" = inr (VStr (s +:+ "%"))
          ∧ shows (mul100 (float_lit (-0.0512))) s)
  ∧ tile sample_metrics "Performance" "1Y Return" = inr (VStr "-5.12%")
  ∧ (m ← key_metrics (<["dividendYield" := VNum (float_lit 1e308)]> sample_info);
     tile m "Dividend" "Dividend Yield")
    = inr (VStr "inf%").
Proof.
  split; [vm_compute; reflexivity|]. split; [|split; vm_compute; reflexivity].
  apply (X4_percent_tiles_show_the_percentage sample_info sample_metrics "52WeekChange").
  - vm_compute. reflexivity.
  - unfold percent_tiles. repeat first [apply list_elem_of_here | apply list_elem_of_further].
  - vm_compute. reflexivity.
Defined.

Section Thousands.

Lemma remove_char_grouped s :
  all_chars (is_not ",") s = true → remove_char "," (group_thousands s) = s.
Proof.
  induction s as [|c s IH]; [done|]. cbn [all_chars group_thousands].
  rewrite andb_true_iff. intros [Hc Hs]. unfold is_not in Hc. cbn [remove_char].
  destruct (Ascii.eqb c ","); [done|]. f_equal.
  match goal with |- context [if ?b then _ else _] => destruct b end;
    [change (remove_char "," (String "," ?t)) with (remove_char "," t)|]; auto.
Qed.

Lemma length_grouped s :
  String.length (group_thousands s)
  = (String.length s + (String.length s - 1) / 3)%nat.
Proof.
  induction s as [|c s IH]; [done|]. cbn [group_thousands String.length].
  rewrite Nat.sub_succ, Nat.sub_0_r.
  pose proof (Nat.div_mod (String.length s) 3 ltac:(lia)) as H1.
  pose proof (Nat.div_mod (String.length s - 1) 3 ltac:(lia)) as H2.
  pose proof (Nat.mod_upper_bound (String.length s - 1) 3 ltac:(lia)).
  pose proof (Nat.mod_upper_bound (String.length s) 3 ltac:(lia)).
  destruct (Nat.ltb_spec 0 (String.length s)) as [Hpos|Hzero];
    destruct (Nat.eqb_spec (String.length s mod 3) 0) as [Hmod|Hmod];
    cbn [andb String.length]; rewrite IH; lia.
Qed.

Lemma int_commas_plain z : remove_char "," (int_commas z) = int_str z.
Proof.
  unfold int_commas, int_str.
  assert (remove_char "," (group_thousands (digits (Z.abs_N z))) = digits (Z.abs_N z)) as H.
  { apply remove_char_grouped.
    apply (all_chars_weaken is_digit); [|apply digits_are_digits].
    apply is_digit_not. reflexivity. }
  destruct (z <? 0); cbn [sign_prefix].
  - change ("-" +:+ ?t) with (String "-" t).
    change (remove_char "," (String "-" ?t)) with (String "-" (remove_char "," t)).
    by rewrite H.
  - change ("" +:+ ?t) with t. exact H.
Qed.

End Thousands.

(** X5.  For an integer market cap the Market Cap tile is the currency sign
    followed by the digits of the number with thousands separators: taking
    the commas out leaves the plain decimal text of the number, and there
    is one comma for every full group of three digits after the first
    digit. *)
Theorem X5_market_cap_tile info m z :
  key_metrics info = inr m →
  info !! "marketCap" = Some (VNum (Int z)) →
  ∃ t, tile m "Valuation" "Market Cap" = inr (VStr ("₹" +:+ t))
       ∧ remove_char "," t = int_str z
       ∧ String.length t
         = (String.length (int_str z) + (String.length (digits (Z.abs_N z)) - 1) / 3)%nat.
Proof.
  intros Hm Hk. apply key_metrics_tiles in Hm.
  destruct Hm as [cp mc pe pb fpe dy dr pr hi lo ch te fe rg
                    price yield rate payout high low change growth
                    _ Hmc _ _ _ _ _ _ _ _ _ _ _ _ _ _ _ _ _ _ _ _].
  unfold dict_get in Hmc. rewrite Hk in Hmc. simpl in Hmc. injection Hmc as <-.
  exists (int_commas z). split; [reflexivity|]. split; [apply int_commas_plain|].
  unfold int_commas, int_str.
  destruct (z <? 0); cbn [sign_prefix].
  - change ("-" +:+ ?t) with (String "-" t). cbn [String.length].
    rewrite length_grouped. lia.
  - change ("" +:+ ?t) with t. apply length_grouped.
Qed.

Lemma X5_witness :
  ∃ m, key_metrics sample_info = inr m
       ∧ ∃ t, tile m "Valuation" "Market Cap" = inr (VStr ("₹" +:+ t))
              ∧ remove_char "," t = "6312345678901"
              ∧ String.length t = 17%nat.
Proof.
  exists sample_metrics. split; [vm_compute; reflexivity|].
  apply (X5_market_cap_tile sample_info sample_metrics 6312345678901);
    vm_compute; reflexivity.
Defined.

Section Outcomes.

Context (P : Provider) (ticker : string).

(** No metrics: the analysis ends after the error. *)
Lemma analyze_without_metrics log e :
  info_of P (length (fetches log)) ticker ≫= key_metrics = inl e →
  analyze P ticker log
  = (inr (),
     log ++ [ Fetch_info ticker;
              Page (st_error ("Error fetching stock data: " +:+ exn_text e)) ]).
Proof.
  intros He. unfold analyze.
  rewrite (bind_ok _ _ _ None
             (log ++ [ Fetch_info ticker;
                       Page (st_error ("Error fetching stock data: " +:+ exn_text e)) ]));
    [done|].
  rewrite get_key_metrics_run. by rewrite He.
Qed.

(** The second snapshot fetch is not guarded: its exception ends the run. *)
Lemma analyze_name_fetch_raises log info m e :
  info_of P (length (fetches log)) ticker = inr info →
  key_metrics info = inr m →
  info_of P (S (length (fetches log))) ticker = inl e →
  analyze P ticker log = (inl e, log ++ [Fetch_info ticker; Fetch_info ticker]).
Proof.
  intros Hinfo Hm He. unfold analyze.
  rewrite (bind_ok _ _ _ (Some m) (log ++ [Fetch_info ticker]))
    by (rewrite get_key_metrics_run, Hinfo; simpl; by rewrite Hm).
  pose proof (proj1 (key_metrics_tiles info m) Hm) as Htiles.
  destruct m as [|g m']; [inversion Htiles|]. cbv iota beta.
  unfold mbind at 1, M_bind, stock_info.
  rewrite fetches_app, length_app, Nat.add_1_r. simpl length. rewrite He.
  by rewrite <- app_assoc.
Qed.

End Outcomes.

Section Projections.

Lemma tiles_shown_tab_entries m : tiles_shown (tab_entries m) = concat (map snd m).
Proof.
  unfold tab_entries, tiles_shown. cbn [omap list_omap].
  induction m as [|[category g] m IH]; [done|].
  cbn [map concat snd]. rewrite omap_app, IH. f_equal.
  cbn [omap list_omap]. clear. induction g as [|[name v] g IH]; [done|].
  cbn [map omap list_omap]. by rewrite IH.
Qed.

Lemma charts_tab_entries m : charts (tab_entries m) = [].
Proof.
  unfold tab_entries, charts. cbn [omap list_omap].
  induction m as [|[category g] m IH]; [done|].
  cbn [map concat]. rewrite omap_app, IH, app_nil_r.
  cbn [omap list_omap]. clear. induction g as [|[name v] g IH]; [done|].
  cbn [map omap list_omap]. exact IH.
Qed.

Lemma errors_tab_entries m : errors (tab_entries m) = [].
Proof.
  unfold tab_entries, errors. cbn [omap list_omap].
  induction m as [|[category g] m IH]; [done|].
  cbn [map concat]. rewrite omap_app, IH, app_nil_r.
  cbn [omap list_omap]. clear. induction g as [|[name v] g IH]; [done|].
  cbn [map omap list_omap]. exact IH.
Qed.

Lemma banners_tab_entries m : banners (tab_entries m) = [].
Proof.
  unfold tab_entries, banners. cbn [omap list_omap].
  induction m as [|[category g] m IH]; [done|].
  cbn [map concat]. rewrite omap_app, IH, app_nil_r.
  cbn [omap list_omap]. clear. induction g as [|[name v] g IH]; [done|].
  cbn [map omap list_omap]. exact IH.
Qed.

Lemma banners_banner v : banners [Page (banner v)] = [banner v].
Proof. by destruct v as [[] msg]. Qed.

End Projections.

(** X6.  Whatever the provider answers, each of the two static methods
    makes exactly one provider call and never raises.  When it returns a
    value it writes nothing to the page; when it returns [None] it writes
    exactly one [st.error], whose text is the method's prefix followed by
    the text of the exception that was raised: by the provider call, or by
    the building of the dictionary from the snapshot, respectively by the
    lookup of the "Close" column. *)
Theorem X6_methods_call_once_and_never_raise P ticker period log :
  (∃ r extra,
     get_key_metrics P ticker log = (inr r, log ++ Fetch_info ticker :: extra)
     ∧ match r with
       | Some m =>
           info_of P (length (fetches log)) ticker ≫= key_metrics = inr m
           ∧ extra = []
       | None =>
           ∃ e, info_of P (length (fetches log)) ticker ≫= key_metrics = inl e
                ∧ extra = [Page (st_error ("Error fetching stock data: " +:+ exn_text e))]
       end)
  ∧ (∃ r extra,
       plot_price_history P ticker period log
       = (inr r, log ++ Fetch_history ticker period :: extra)
       ∧ match r with
         | Some fig =>
             (history_of P (length (fetches log)) ticker period
                ≫= λ df, price_figure ticker df <$> df_subscript df "Close") = inr fig
             ∧ extra = []
         | None =>
             ∃ e, (history_of P (length (fetches log)) ticker period
                     ≫= λ df, price_figure ticker df <$> df_subscript df "Close") = inl e
                  ∧ extra = [Page (st_error ("Error creating stock chart: " +:+ exn_text e))]
         end).
Proof.
  split.
  - rewrite get_key_metrics_run.
    destruct (_ ≫= key_metrics) as [e|m].
    + exists None. eexists. split; [reflexivity|]. by exists e.
    + exists (Some m), []. by split.
  - rewrite plot_price_history_run.
    destruct (_ ≫= _) as [e|fig].
    + exists None. eexists. split; [reflexivity|]. by exists e.
    + exists (Some fig), []. by split.
Qed.

(** X7.  A run of [main] analyses exactly when the ticker is not empty or
    the button was pressed.  With an empty ticker and no button press it
    writes the fixed part of the page, makes no provider call and ends. *)
Theorem X7_no_input_no_analysis P ticker analyze_button :
  run (main P "" false) = (inr (), preamble)
  ∧ (fetches (snd (run (main P ticker analyze_button))) = []
     ↔ ticker = "" ∧ analyze_button = false).
Proof.
  split; [reflexivity|]. unfold run. rewrite main_run. split.
  - destruct (truthy ticker || analyze_button) eqn:Hgo.
    + destruct (analyze_fetches P ticker ([] ++ preamble)) as (k & Hk & ->).
      destruct k as [|k]; [lia|]. discriminate.
    + intros _. apply orb_false_iff in Hgo as [Ht ->]. split; [|done].
      unfold truthy in Ht. apply negb_false_iff, String.eqb_eq in Ht. exact Ht.
  - intros [-> ->]. reflexivity.
Qed.

(** X8.  When [get_key_metrics] has no metrics to return, because the fetch
    raised or because the dictionary could not be built from the snapshot,
    [main] shows that one error and stops: no second fetch, no tile, no
    chart request, no banner; the run ends normally. *)
Theorem X8_no_metrics_no_page P ticker analyze_button log e :
  truthy ticker || analyze_button = true →
  info_of P (length (fetches log)) ticker ≫= key_metrics = inl e →
  main P ticker analyze_button log
  = (inr (),
     log ++ preamble
       ++ [ Fetch_info ticker;
            Page (st_error ("Error fetching stock data: " +:+ exn_text e)) ]).
Proof.
  intros Hgo He. rewrite main_run, Hgo.
  rewrite (analyze_without_metrics P ticker _ e).
  - by rewrite <- app_assoc.
  - rewrite fetches_app. simpl. by rewrite app_nil_r.
Qed.

Lemma X8_witness :
  run (main (steady no_price_info sample_frame) "INFY.NS" false)
  = (inr (),
     preamble
       ++ [ Fetch_info "INFY.NS";
            Page (st_error
              "Error fetching stock data: Unknown format code 'f' for object of type 'str'") ]).
Proof.
  exact (X8_no_metrics_no_page (steady no_price_info sample_frame) "INFY.NS" false []
           (Exn "ValueError" "Unknown format code 'f' for object of type 'str'")
           eq_refl eq_refl).
Defined.

(** X9.  The snapshot fetch that [main] makes for the company name is
    outside every [try]: when it raises, after [get_key_metrics] has
    returned the metrics, the exception leaves [main]; by then the run has
    made two provider calls and has shown no tile, chart or banner. *)
Theorem X9_name_fetch_failure_escapes P ticker analyze_button log info m e :
  truthy ticker || analyze_button = true →
  info_of P (length (fetches log)) ticker = inr info →
  key_metrics info = inr m →
  info_of P (S (length (fetches log))) ticker = inl e →
  main P ticker analyze_button log
  = (inl e, log ++ preamble ++ [Fetch_info ticker; Fetch_info ticker]).
Proof.
  intros Hgo Hinfo Hm He. rewrite main_run, Hgo.
  assert (fetches (log ++ preamble) = fetches log) as Hq
    by (rewrite fetches_app; simpl; by rewrite app_nil_r).
  rewrite (analyze_name_fetch_raises P ticker _ info m e) by (rewrite ?Hq; done).
  by rewrite <- app_assoc.
Qed.

Lemma X9_witness :
  run (main answers_once "INFY.NS" false)
  = (inl (Exn "ConnectionError" "provider unreachable"),
     preamble ++ [Fetch_info "INFY.NS"; Fetch_info "INFY.NS"]).
Proof.
  refine (X9_name_fetch_failure_escapes answers_once "INFY.NS" false [] sample_info _ _
            eq_refl eq_refl _ eq_refl).
  vm_compute. reflexivity.
Defined.

Section Shown.

Lemma fetches_chart_entries ticker period answer :
  fetches (chart_entries ticker period answer) = [Fetch_history ticker period].
Proof. unfold chart_entries. by destruct (answer ≫= _). Qed.

Lemma charts_or_error ticker period answer :
  (length (charts (chart_entries ticker period answer))
   + length (errors (chart_entries ticker period answer)) = 1)%nat.
Proof. unfold chart_entries. by destruct (answer ≫= _). Qed.

Lemma tiles_shown_chart_entries ticker period answer :
  tiles_shown (chart_entries ticker period answer) = [].
Proof. unfold chart_entries. by destruct (answer ≫= _). Qed.

Lemma banners_chart_entries ticker period answer :
  banners (chart_entries ticker period answer) = [].
Proof. unfold chart_entries. by destruct (answer ≫= _). Qed.

Lemma banners_insights pe dy rg :
  banners (insights pe dy rg)
  = [ banner (valuation_indicator pe);
      banner (dividend_health (tile_reading dy));
      banner (growth_potential (tile_reading rg)) ].
Proof.
  unfold insights, banners. cbn [omap list_omap].
  by destruct (valuation_indicator pe) as [[] ?],
              (dividend_health (tile_reading dy)) as [[] ?],
              (growth_potential (tile_reading rg)) as [[] ?].
Qed.

Lemma quiet_insights pe dy rg :
  fetches (insights pe dy rg) = []
  ∧ tiles_shown (insights pe dy rg) = []
  ∧ charts (insights pe dy rg) = []
  ∧ errors (insights pe dy rg) = [].
Proof.
  unfold insights, fetches, tiles_shown, charts, errors. cbn [omap list_omap List.filter is_fetch].
  by destruct (valuation_indicator pe) as [[] ?],
              (dividend_health (tile_reading dy)) as [[] ?],
              (growth_potential (tile_reading rg)) as [[] ?].
Qed.

End Shown.

(** X10.  When both snapshot fetches succeed and the first snapshot gives
    the metrics, the run of [main] ends normally whatever the history
    request does.  After the fixed part of the page it makes the three
    planned provider calls, shows every tile of the metrics exactly once in
    the order of the dictionary, shows either the chart or one chart error,
    and shows exactly three banners: those of the rounded P/E and of the
    two percentages read back from their tiles. *)
Theorem X10_successful_run P ticker analyze_button log info info' m :
  truthy ticker || analyze_button = true →
  info_of P (length (fetches log)) ticker = inr info →
  key_metrics info = inr m →
  info_of P (S (length (fetches log))) ticker = inr info' →
  ∃ shown pe dy rg,
    main P ticker analyze_button log = (inr (), log ++ preamble ++ shown)
    ∧ fetches shown = fetch_plan ticker
    ∧ tiles_shown shown = concat (map snd m)
    ∧ (length (charts shown) + length (errors shown) = 1)%nat
    ∧ dict_get info "trailingPE" (VNum (Int 0)) = VNum pe
    ∧ dict_get info "dividendYield" (VNum (Int 0)) = VNum dy
    ∧ dict_get info "revenueGrowth" (VNum (Int 0)) = VNum rg
    ∧ banners shown
      = [ banner (valuation_indicator (round2 pe));
          banner (dividend_health (tile_reading (mul100 dy)));
          banner (growth_potential (tile_reading (mul100 rg))) ].
Proof.
  intros Hgo Hinfo Hm Hinfo'.
  assert (fetches (log ++ preamble) = fetches log) as Hq
    by (rewrite fetches_app; simpl; by rewrite app_nil_r).
  destruct (analyze_run P ticker (log ++ preamble) info info' m)
    as (pe & dy & rg & Hpe & Hdy & Hrg & Hrun); rewrite ?Hq; try done.
  rewrite Hq in Hrun.
  eexists _, pe, dy, rg.
  split; [rewrite main_run, Hgo, Hrun, <- app_assoc; reflexivity|].
  destruct (quiet_insights (round2 pe) (mul100 dy) (mul100 rg)) as (Hf & Ht & Hc & He).
  split; [|split; [|split; [|repeat (split; [done|])]]].
  - rewrite !fetches_app, fetches_tab_entries, fetches_chart_entries, Hf. reflexivity.
  - unfold tiles_shown in *. rewrite !omap_app.
    fold (tiles_shown (tab_entries m)). rewrite tiles_shown_tab_entries.
    fold (tiles_shown (chart_entries ticker "1y"
            (history_of P (S (S (length (fetches log)))) ticker "1y"))).
    rewrite tiles_shown_chart_entries, Ht. cbn [omap list_omap]. by rewrite !app_nil_r.
  - pose proof (charts_or_error ticker "1y"
                  (history_of P (S (S (length (fetches log)))) ticker "1y")) as Hone.
    unfold charts, errors in *. rewrite !omap_app, !length_app.
    fold (charts (tab_entries m)) (errors (tab_entries m)).
    rewrite charts_tab_entries, errors_tab_entries, Hc, He.
    cbn [omap list_omap length]. lia.
  - unfold banners. rewrite !omap_app.
    fold (banners (tab_entries m)). rewrite banners_tab_entries.
    fold (banners (chart_entries ticker "1y"
            (history_of P (S (S (length (fetches log)))) ticker "1y"))).
    rewrite banners_chart_entries.
    fold (banners (insights (round2 pe) (mul100 dy) (mul100 rg))).
    rewrite banners_insights. reflexivity.
Qed.

Lemma X10_witness :
  ∃ m, key_metrics sample_info = inr m
       ∧ ∃ shown pe dy rg,
           main no_history "INFY.NS" false [] = (inr (), [] ++ preamble ++ shown)
           ∧ fetches shown = fetch_plan "INFY.NS"
           ∧ tiles_shown shown = concat (map snd m)
           ∧ (length (charts shown) + length (errors shown) = 1)%nat
           ∧ dict_get sample_info "trailingPE" (VNum (Int 0)) = VNum pe
           ∧ dict_get sample_info "dividendYield" (VNum (Int 0)) = VNum dy
           ∧ dict_get sample_info "revenueGrowth" (VNum (Int 0)) = VNum rg
           ∧ banners shown
             = [ banner (valuation_indicator (round2 pe));
                 banner (dividend_health (tile_reading (mul100 dy)));
                 banner (growth_potential (tile_reading (mul100 rg))) ].
Proof.
  eexists. split; [vm_compute; reflexivity|].
  apply (X10_successful_run no_history "INFY.NS" false [] sample_info sample_info);
    first [reflexivity | vm_compute; reflexivity].
Defined.

(** X11.  The "Quick Insights" part never raises on metrics that
    [get_key_metrics] returned: the P/E tile is a number, and each of the
    two percentage tiles, a text that [:.2f] printed, is accepted by
    [float] once the percent sign is removed. *)
Theorem X11_insights_always_complete P ticker log m :
  fst (get_key_metrics P ticker log) = inr (Some m) →
  (∃ pe, tile m "Valuation" "P/E Ratio" ≫= py_number "<" = inr pe)
  ∧ (∃ d, percent_tile m "Dividend" "Dividend Yield" = inr d)
  ∧ (∃ g, percent_tile m "Growth" "Revenue Growth" = inr g)
  ∧ ∀ log', fst (quick_insights m log') = inr ().
Proof.
  rewrite get_key_metrics_run.
  destruct (info_of P _ ticker) as [e|info]; simpl; [done|].
  destruct (key_metrics info) as [e|m'] eqn:Hm; simpl; [done|].
  intros [= ->]. apply key_metrics_tiles in Hm.
  destruct (quick_insights_run info m [] Hm)
    as (pe & dy & rg & _ & _ & _ & Hpe & Hd & Hg & _).
  split; [exists (round2 pe); by rewrite Hpe|].
  split; [by eexists|]. split; [by eexists|].
  intros log'.
  destruct (quick_insights_run info m log' Hm) as (? & ? & ? & _ & _ & _ & _ & _ & _ & ->).
  reflexivity.
Qed.

Lemma X11_witness :
  ∃ m, fst (run (get_key_metrics (steady sample_info sample_frame) "INFY.NS")) = inr (Some m)
       ∧ ∀ log', fst (quick_insights m log') = inr ().
Proof.
  eexists. split; [vm_compute; reflexivity|].
  apply (X11_insights_always_complete (steady sample_info sample_frame) "INFY.NS" []).
  vm_compute. reflexivity.
Defined.

(** X14.  [main] can end with an exception in one way only: the metrics
    were built and the snapshot fetch for the company name raised.  A fetch
    failure inside either static method, a snapshot from which the
    dictionary cannot be built, and a failed chart never make [main]
    raise. *)
Theorem X14_main_raises_only_on_the_name_fetch P ticker analyze_button log e :
  fst (main P ticker analyze_button log) = inl e →
  ∃ info m,
    info_of P (length (fetches log)) ticker = inr info
    ∧ key_metrics info = inr m
    ∧ info_of P (S (length (fetches log))) ticker = inl e.
Proof.
  rewrite main_run.
  assert (fetches (log ++ preamble) = fetches log) as Hq
    by (rewrite fetches_app; simpl; by rewrite app_nil_r).
  destruct (truthy ticker || analyze_button); [|discriminate].
  destruct (info_of P (length (fetches log)) ticker) as [e1|info] eqn:Hinfo.
  { rewrite (analyze_without_metrics P ticker _ e1) by (by rewrite Hq, Hinfo).
    discriminate. }
  destruct (key_metrics info) as [e1|m] eqn:Hm.
  { rewrite (analyze_without_metrics P ticker _ e1) by (by rewrite Hq, Hinfo).
    discriminate. }
  destruct (info_of P (S (length (fetches log))) ticker) as [e2|info'] eqn:Hinfo'.
  - rewrite (analyze_name_fetch_raises P ticker _ info m e2) by (rewrite ?Hq; done).
    intros [= ->]. by exists info, m.
  - destruct (analyze_run P ticker (log ++ preamble) info info' m)
      as (pe & dy & rg & _ & _ & _ & ->); rewrite ?Hq; try done.
Qed.

Lemma X14_witness :
  ∃ info m,
    info_of answers_once (length (fetches [])) "INFY.NS" = inr info
    ∧ key_metrics info = inr m
    ∧ info_of answers_once (S (length (fetches []))) "INFY.NS"
      = inl (Exn "ConnectionError" "provider unreachable").
Proof.
  apply (X14_main_raises_only_on_the_name_fetch answers_once "INFY.NS" false []).
  vm_compute. reflexivity.
Defined.

(** * Rounding to binary64 does not cross a float *)

Section Nearest_float.

Lemma round_half_even_le a d t : a <= t * Z.pos d → round_half_even a d <= t.
Proof.
  intros Ha. unfold round_half_even.
  pose proof (Z.div_mod a (Z.pos d) ltac:(lia)) as Hdm.
  pose proof (Z.mod_pos_bound a (Z.pos d) ltac:(lia)) as Hr.
  destruct (Z.compare_spec (2 * (a mod Z.pos d)) (Z.pos d)) as [He|Hl|Hg];
    [destruct (Z.even _)| |]; nia.
Qed.

Lemma round_half_even_ge a d t : t * Z.pos d <= a → t <= round_half_even a d.
Proof.
  intros Ha. unfold round_half_even.
  pose proof (Z.div_mod a (Z.pos d) ltac:(lia)) as Hdm.
  pose proof (Z.mod_pos_bound a (Z.pos d) ltac:(lia)) as Hr.
  destruct (Z.compare_spec (2 * (a mod Z.pos d)) (Z.pos d)) as [He|Hl|Hg];
    [destruct (Z.even _)| |]; nia.
Qed.

Lemma binade_le q : binade q <= Z.log2 (Z.abs (Qnum q)) - Z.log2 (Z.pos (Qden q)).
Proof.
  unfold binade.
  destruct (0 <=? _); [destruct (_ <=? _)|destruct (_ <=? _)]; lia.
Qed.

Lemma to_pos_pow2 k : 0 <= k → Z.pos (Z.to_pos (2 ^ k)) = 2 ^ k.
Proof. intros Hk. apply Z2Pos.id. apply Z.pow_pos_nonneg; lia. Qed.

(** The exponent of the rounding step is small when the value is. *)
Lemma exponent_le n d F j :
  0 < n → 0 < F < 2 ^ 52 → 0 <= j →
  n * 2 ^ j <= F * Z.pos d →
  binade (n # d) - 52 <= - j.
Proof.
  intros Hn HF Hj Hle.
  pose proof (binade_le (n # d)) as Hb. cbn [Qnum Qden] in Hb. rewrite Z.abs_eq in Hb by lia.
  pose proof (Z.log2_spec n Hn) as [Ha _].
  pose proof (Z.log2_spec (Z.pos d) ltac:(lia)) as [_ Hd].
  pose proof (Z.log2_nonneg n) as Ha0. pose proof (Z.log2_nonneg (Z.pos d)) as Hb0.
  assert (2 ^ (Z.log2 n + j) < 2 ^ (Z.log2 (Z.pos d) + 53)) as Hpow.
  { rewrite !Z.pow_add_r by lia. rewrite Z.pow_succ_r in Hd by lia.
    assert (0 < 2 ^ j) by (apply Z.pow_pos_nonneg; lia).
    assert (0 < 2 ^ Z.log2 (Z.pos d)) by (apply Z.pow_pos_nonneg; lia).
    change (2 ^ 53) with (2 ^ 52 * 2).
    assert (2 ^ Z.log2 n * 2 ^ j <= n * 2 ^ j) by nia.
    assert (F * Z.pos d < 2 ^ 52 * (2 * 2 ^ Z.log2 (Z.pos d)))
      by (apply Z.mul_lt_mono_nonneg; lia).
    lia. }
  apply Z.pow_lt_mono_r_iff in Hpow; lia.
Qed.

(** A value at or below a float [F / 2^j] rounds to a float at or below it. *)
Lemma rnd64_le n d F j :
  0 < F < 2 ^ 52 → 0 <= j <= 1074 →
  n * 2 ^ j <= F * Z.pos d →
  (rnd64 (n # d) <= F # Z.to_pos (2 ^ j))%Q.
Proof.
  intros HF Hj Hle. unfold rnd64. cbn [Qnum Qden].
  assert (0 < 2 ^ j) as Hpj by (apply Z.pow_pos_nonneg; lia).
  destruct (Z.eqb_spec n 0) as [->|Hn0].
  { unfold Qle. simpl. lia. }
  set (e := Z.max (binade (n # d) - 52) (-1074)).
  destruct (Z.leb_spec 0 e) as [He|He].
  - assert (0 < 2 ^ e) as Hpe by (apply Z.pow_pos_nonneg; lia).
    unfold Qle, inject_Z. cbn [Qnum Qden]. rewrite to_pos_pow2 by lia.
    destruct (Z.lt_total n 0) as [Hneg|[?|Hpos]]; [|lia|].
    + pose proof (round_half_even_nonpos n (d * Z.to_pos (2 ^ e)) Hneg). nia.
    + pose proof (exponent_le n d F j Hpos HF ltac:(lia) Hle) as Hexp.
      assert (e = 0 ∧ j = 0) as [He0 ->] by lia.
      rewrite He0 in *. change (2 ^ 0) with 1 in *. change (Z.to_pos 1) with 1%positive.
      rewrite Pos.mul_1_r.
      pose proof (round_half_even_le n d F ltac:(lia)). lia.
  - assert (0 < 2 ^ (- e)) as Hpe by (apply Z.pow_pos_nonneg; lia).
    rewrite Qred_correct. unfold Qle. cbn [Qnum Qden]. rewrite !to_pos_pow2 by lia.
    destruct (Z.lt_total n 0) as [Hneg|[?|Hpos]]; [|lia|].
    + pose proof (round_half_even_nonpos (n * 2 ^ (- e)) d ltac:(nia)). nia.
    + pose proof (exponent_le n d F j Hpos HF ltac:(lia) Hle) as Hexp.
      assert (e <= - j) as Hej by lia.
      assert (2 ^ (- e) = 2 ^ j * 2 ^ (- e - j)) as Hsplit
        by (rewrite <- Z.pow_add_r by lia; f_equal; lia).
      assert (0 < 2 ^ (- e - j)) by (apply Z.pow_pos_nonneg; lia).
      pose proof (round_half_even_le (n * 2 ^ (- e)) d (F * 2 ^ (- e - j)) ltac:(nia)).
      nia.
Qed.

(** A value at or above a float [F / 2^j] rounds to a float at or above it. *)
Lemma rnd64_ge n d F j :
  0 < F < 2 ^ 52 → 0 <= j <= 1074 →
  F * Z.pos d <= n * 2 ^ j →
  (F # Z.to_pos (2 ^ j) <= rnd64 (n # d))%Q.
Proof.
  intros HF Hj Hle. unfold rnd64. cbn [Qnum Qden].
  assert (0 < 2 ^ j) as Hpj by (apply Z.pow_pos_nonneg; lia).
  assert (0 < n) as Hn by nia.
  destruct (Z.eqb_spec n 0) as [->|_]; [lia|].
  pose proof (binade_le (n # d)) as Hb. cbn [Qnum Qden] in Hb.
  rewrite Z.abs_eq in Hb by lia.
  pose proof (Z.log2_spec n Hn) as [Ha _].
  pose proof (Z.log2_spec (Z.pos d) ltac:(lia)) as [_ Hd].
  pose proof (Z.log2_nonneg n) as Ha0. pose proof (Z.log2_nonneg (Z.pos d)) as Hb0.
  rewrite Z.pow_succ_r in Hd by lia.
  set (a := Z.log2 n) in *. set (b := Z.log2 (Z.pos d)) in *.
  assert (0 < 2 ^ b) as Hpb by (apply Z.pow_pos_nonneg; lia).
  set (e := Z.max (binade (n # d) - 52) (-1074)).
  destruct (Z.leb_spec 0 e) as [He|He].
  - assert (0 < 2 ^ e) as Hpe by (apply Z.pow_pos_nonneg; lia).
    unfold Qle, inject_Z. cbn [Qnum Qden]. rewrite !to_pos_pow2 by lia.
    destruct (Z.le_gt_cases e (- j)) as [Hej|Hej].
    + assert (e = 0 ∧ j = 0) as [He0 ->] by lia.
      rewrite He0 in *. change (2 ^ 0) with 1 in *. change (Z.to_pos 1) with 1%positive.
      rewrite Pos.mul_1_r.
      pose proof (round_half_even_ge n d F ltac:(lia)). lia.
    + assert (b + e + 52 <= a) as Hab by lia.
      assert (2 ^ (b + e + 52) <= 2 ^ a) as Hpow by (apply Z.pow_le_mono_r; lia).
      rewrite !Z.pow_add_r in Hpow by lia.
      pose proof (round_half_even_ge n (d * Z.to_pos (2 ^ e)) (2 ^ 51)) as Hm.
      rewrite Pos2Z.inj_mul, to_pos_pow2 in Hm by lia.
      change (2 ^ 52) with (2 * 2 ^ 51) in *.
      assert (0 < 2 ^ 51) as Hp51 by lia.
      specialize (Hm ltac:(nia)).
      assert (2 <= 2 ^ e * 2 ^ j) as Hej2.
      { rewrite <- Z.pow_add_r by lia. change 2 with (2 ^ 1) at 1.
        apply Z.pow_le_mono_r; lia. }
      nia.
  - assert (0 < 2 ^ (- e)) as Hpe by (apply Z.pow_pos_nonneg; lia).
    rewrite Qred_correct. unfold Qle. cbn [Qnum Qden]. rewrite !to_pos_pow2 by lia.
    destruct (Z.le_gt_cases e (- j)) as [Hej|Hej].
    + assert (2 ^ (- e) = 2 ^ j * 2 ^ (- e - j)) as Hsplit
        by (rewrite <- Z.pow_add_r by lia; f_equal; lia).
      assert (0 < 2 ^ (- e - j)) by (apply Z.pow_pos_nonneg; lia).
      pose proof (round_half_even_ge (n * 2 ^ (- e)) d (F * 2 ^ (- e - j)) ltac:(nia)).
      nia.
    + assert (b + 52 <= a - e) as Hab by lia.
      assert (2 ^ (b + 52) <= 2 ^ (a - e)) as Hpow by (apply Z.pow_le_mono_r; lia).
      replace (a - e) with (a + - e) in Hpow by lia.
      rewrite !Z.pow_add_r in Hpow by lia.
      change (2 ^ 52) with (2 * 2 ^ 51) in *.
      assert (0 < 2 ^ 51) as Hp51 by lia.
      pose proof (round_half_even_ge (n * 2 ^ (- e)) d (2 ^ 51) ltac:(nia)) as Hm.
      assert (2 * 2 ^ (- e) <= 2 ^ j) as Hej2.
      { change 2 with (2 ^ 1) at 1. rewrite <- Z.pow_add_r by lia.
        apply Z.pow_le_mono_r; lia. }
      nia.
Qed.

(** Reading a two-place decimal into a float does not change how it
    compares with a whole number. *)
Lemma reading_above h t :
  1 <= t < 2 ^ 44 → (inject_Z t < rnd64 (h # 100))%Q ↔ 100 * t < h.
Proof.
  intros Ht. split.
  - intros Hlt. destruct (Z.lt_ge_cases (100 * t) h) as [|Hle]; [done|]. exfalso.
    pose proof (rnd64_le h 100 t 0 ltac:(lia) ltac:(lia) ltac:(lia)) as Hr.
    change (t # Z.to_pos (2 ^ 0)) with (inject_Z t) in Hr.
    apply (Qlt_not_le _ _ Hlt Hr).
  - intros Hlt.
    pose proof (rnd64_ge h 100 (128 * t + 1) 7 ltac:(lia) ltac:(lia) ltac:(lia)) as Hr.
    eapply Qlt_le_trans; [|exact Hr].
    unfold Qlt, inject_Z. simpl. lia.
Qed.

Lemma reading_below h t :
  1 <= t < 2 ^ 44 → (rnd64 (h # 100) < inject_Z t)%Q ↔ h < 100 * t.
Proof.
  intros Ht. split.
  - intros Hlt. destruct (Z.lt_ge_cases h (100 * t)) as [|Hle]; [done|]. exfalso.
    pose proof (rnd64_ge h 100 t 0 ltac:(lia) ltac:(lia) ltac:(lia)) as Hr.
    change (t # Z.to_pos (2 ^ 0)) with (inject_Z t) in Hr.
    apply (Qlt_not_le _ _ Hlt Hr).
  - intros Hlt.
    pose proof (rnd64_le h 100 (128 * t - 1) 7 ltac:(lia) ltac:(lia) ltac:(lia)) as Hr.
    eapply Qle_lt_trans; [exact Hr|].
    unfold Qlt, inject_Z. simpl. lia.
Qed.

Lemma rnd64_nonneg q : 0 <= Qnum q → (0 <= rnd64 q)%Q.
Proof.
  intros Hq. unfold rnd64.
  destruct (Z.eqb_spec (Qnum q) 0) as [_|_]; [apply Qle_refl|].
  set (e := Z.max (binade q - 52) (-1074)).
  destruct (Z.leb_spec 0 e) as [He|He].
  - assert (0 < 2 ^ e) by (apply Z.pow_pos_nonneg; lia).
    pose proof (round_half_even_nonneg (Qnum q) (Qden q * Z.to_pos (2 ^ e)) Hq).
    unfold Qle, inject_Z. cbn [Qnum Qden]. nia.
  - assert (0 < 2 ^ (- e)) by (apply Z.pow_pos_nonneg; lia).
    pose proof (round_half_even_nonneg (Qnum q * 2 ^ (- e)) (Qden q) ltac:(nia)).
    rewrite Qred_correct. unfold Qle. cbn [Qnum Qden]. lia.
Qed.

(** A two-place decimal between 0 and a small whole number is within the
    range of binary64. *)
Lemma small_reading_fits h t :
  1 <= t < 2 ^ 44 → 0 <= h <= 100 * t → overflows (rnd64 (h # 100)) = false.
Proof.
  intros Ht Hh.
  pose proof (rnd64_le h 100 t 0 ltac:(lia) ltac:(lia) ltac:(lia)) as Hr.
  change (t # Z.to_pos (2 ^ 0)) with (inject_Z t) in Hr.
  pose proof (rnd64_nonneg (h # 100) ltac:(cbn; lia)) as H0.
  unfold overflows. destruct (Qle_bool _ _) eqn:Hov; [|done]. exfalso.
  apply Qle_bool_iff in Hov. rewrite (Qabs_pos _ H0) in Hov.
  pose proof (Qle_trans _ _ _ Hov Hr) as Hbig.
  rewrite <- Zle_Qle in Hbig.
  assert (2 ^ 44 <= 2 ^ 1024) by (apply Z.pow_le_mono_r; lia). lia.
Qed.

Lemma gt_int_reading h t :
  1 <= t < 2 ^ 44 → gt_int (nearest_float (h # 100)) t = (100 * t <? h).
Proof.
  intros Ht. pose proof (reading_above h t Ht) as Hiff. unfold nearest_float.
  destruct (overflows (rnd64 (h # 100))) eqn:Hov.
  - cbn [Qnum]. destruct (Z.ltb_spec h 0) as [Hneg|Hpos]; cbn.
    + symmetry. apply Z.ltb_ge. lia.
    + symmetry. apply Z.ltb_lt. destruct (Z.lt_ge_cases (100 * t) h) as [|Hle]; [done|].
      rewrite (small_reading_fits h t) in Hov by lia. done.
  - destruct (Z.ltb_spec (100 * t) h) as [Hlt|Hle].
    + apply gt_int_spec. cbn [above]. by apply Hiff.
    + destruct (gt_int _ t) eqn:Hgt; [|done].
      apply gt_int_spec in Hgt. cbn [above] in Hgt. apply Hiff in Hgt. lia.
Qed.

Lemma lt_int_reading h t :
  1 <= t < 2 ^ 44 → lt_int (nearest_float (h # 100)) t = (h <? 100 * t).
Proof.
  intros Ht. pose proof (reading_below h t Ht) as Hiff. unfold nearest_float.
  destruct (overflows (rnd64 (h # 100))) eqn:Hov.
  - cbn [Qnum]. destruct (Z.ltb_spec h 0) as [Hneg|Hpos]; cbn.
    + symmetry. apply Z.ltb_lt. lia.
    + symmetry. apply Z.ltb_ge. destruct (Z.lt_ge_cases h (100 * t)) as [Hlt|]; [|done].
      rewrite (small_reading_fits h t) in Hov by lia. done.
  - destruct (Z.ltb_spec h (100 * t)) as [Hlt|Hle].
    + apply lt_int_spec. cbn [below]. by apply Hiff.
    + destruct (lt_int _ t) eqn:Hgt; [|done].
      apply lt_int_spec in Hgt. cbn [below] in Hgt. apply Hiff in Hgt. lia.
Qed.

End Nearest_float.

(** X12.  The Dividend Health and Growth Potential banners agree with the
    text on their tiles: binary rounding in [float] never moves a value
    across a threshold.  For a percentage [p] that prints as the float [q],
    with [h] the number of hundredths the tile shows, Dividend Health is
    "High" exactly when the tile shows more than 3.00%, "Moderate" from
    1.01% to 3.00% and "Low" up to 1.00%; Growth Potential is "Strong" above
    10.00%, "Moderate" from 5.01% and "Limited" up to 5.00%.  A tile that
    shows [inf%] gives "High" and "Strong", one that shows [-inf%] gives
    "Low" and "Limited".  (An [int] beyond the range of binary64 prints no
    tile.) *)
Theorem X12_banners_agree_with_the_tiles (p : number) :
  (∀ q, to_float p = Some (Float q) →
     let h := hundredths q in
     dividend_health (tile_reading p)
     = (if 300 <? h then Verdict Success "High Dividend Yield"
        else if 100 <? h then Verdict Info "Moderate Dividend"
        else Verdict Warning "Low Dividend Yield")
     ∧ growth_potential (tile_reading p)
       = (if 1000 <? h then Verdict Success "Strong Growth Potential"
          else if 500 <? h then Verdict Info "Moderate Growth"
          else Verdict Warning "Limited Growth"))
  ∧ (∀ negative, to_float p = Some (Infinity negative) →
     dividend_health (tile_reading p)
     = (if negative then Verdict Warning "Low Dividend Yield"
        else Verdict Success "High Dividend Yield")
     ∧ growth_potential (tile_reading p)
       = (if negative then Verdict Warning "Limited Growth"
          else Verdict Success "Strong Growth Potential")).
Proof.
  split.
  - intros q Hq h. unfold tile_reading. rewrite Hq.
    unfold dividend_health, growth_potential, round2. fold h.
    rewrite !gt_int_reading by lia. done.
  - intros negative Hn. unfold tile_reading. rewrite Hn. by destruct negative.
Qed.

Lemma X12_witness :
  to_float (Int 3) = Some (Float 3)
  ∧ dividend_health (tile_reading (Int 3)) = Verdict Info "Moderate Dividend"
  ∧ growth_potential (tile_reading (Int 3)) = Verdict Warning "Limited Growth".
Proof.
  assert (to_float (Int 3) = Some (Float 3)) as H3 by (vm_compute; reflexivity).
  split; [exact H3|].
  exact (proj1 (X12_banners_agree_with_the_tiles (Int 3)) 3%Q H3).
Defined.

(** X13.  The Valuation banner agrees with the rounded P/E on its tile:
    for a float P/E whose rounding to two places is [h] hundredths, it is
    "Low P/E" exactly when [h < 1500], "High P/E" exactly when [h > 2500]
    and "Reasonable" in between.  So a P/E of 14.996 is shown as 15.0 and
    judged reasonable. *)
Theorem X13_valuation_agrees_with_the_tile (q : Q) :
  let h := hundredths q in
  valuation_indicator (round2 (Float q))
  = (if h <? 1500 then Verdict Success "Low P/E - Potentially Undervalued"
     else if 2500 <? h then Verdict Warning "High P/E - Potentially Overvalued"
     else Verdict Info "Reasonable Valuation")
  ∧ valuation_indicator (round2 (float_lit 14.996)) = Verdict Info "Reasonable Valuation".
Proof.
  intros h. split; [|vm_compute; reflexivity].
  unfold valuation_indicator, round2. fold h.
  rewrite lt_int_reading, gt_int_reading by lia. done.
Qed.

(** X15.  Every run of [main] first writes the fixed part of the page: the
    page configuration, the title, the caption, the ticker input and the
    button come before any provider call and before anything else, and
    nothing written earlier is removed. *)
Theorem X15_fixed_part_comes_first P ticker analyze_button log :
  ∃ rest, snd (main P ticker analyze_button log) = log ++ preamble ++ rest.
Proof.
  rewrite main_run.
  assert (fetches (log ++ preamble) = fetches log) as Hq
    by (rewrite fetches_app; simpl; by rewrite app_nil_r).
  destruct (truthy ticker || analyze_button).
  2:{ exists []. cbn [snd]. by rewrite app_nil_r. }
  destruct (info_of P (length (fetches log)) ticker) as [e1|info] eqn:Hinfo.
  { rewrite (analyze_without_metrics P ticker _ e1) by (by rewrite Hq, Hinfo).
    eexists. cbn [snd]. by rewrite <- app_assoc. }
  destruct (key_metrics info) as [e1|m] eqn:Hm.
  { rewrite (analyze_without_metrics P ticker _ e1) by (by rewrite Hq, Hinfo).
    eexists. cbn [snd]. by rewrite <- app_assoc. }
  destruct (info_of P (S (length (fetches log))) ticker) as [e2|info'] eqn:Hinfo'.
  - rewrite (analyze_name_fetch_raises P ticker _ info m e2) by (rewrite ?Hq; done).
    eexists. cbn [snd]. by rewrite <- app_assoc.
  - destruct (analyze_run P ticker (log ++ preamble) info info' m)
      as (pe & dy & rg & _ & _ & _ & ->); rewrite ?Hq; try done.
    eexists. cbn [snd]. by rewrite <- app_assoc.
Qed.
